(** * Green travel planner: the sampler, the selector and the request handler

    A shallow embedding of [main.py]: [get_emissions_data], [suggest_route],
    the view [index] and the two error handlers, over models of the Python
    and Flask behaviour they rely on (binary64 floats, [random.uniform],
    [dict], [min], [try]/[except], view return values and error handlers). *)

From Stdlib Require Import ZArith List String Ascii Bool Lia.
From Stdlib Require Import Floats.SpecFloat.
Import ListNotations.
Local Open Scope Z_scope.

(** ** Python floats

    A Python [float] is an IEEE 754 binary64 number.  The operations are the
    ones of the standard library's executable specification, at precision 53
    and maximal exponent 1024. *)
Module Float64.

Definition prec : Z := 53.
Definition emax : Z := 1024.
Definition float : Type := spec_float.

Definition add : float -> float -> float := SFadd prec emax.
Definition mul : float -> float -> float := SFmul prec emax.
Definition ltb : float -> float -> bool := SFltb.
Definition leb : float -> float -> bool := SFleb.
Definition eqb : float -> float -> bool := SFeqb.

(** [float(n)] for a Python integer [n]. *)
Definition of_int (n : Z) : float := binary_normalize prec emax n 0 false.

Definition is_nan (x : float) : bool :=
  match x with S754_nan => true | _ => false end.

(** The result of rounding the exact positive value [n * 2^ex] to binary64,
    away from the subnormal and overflow ranges: the mantissa is the quotient
    of [n] by the dropped bits, or its successor when bits were dropped, and
    a mantissa that reaches [2^53] is renormalised. *)
Definition rounds_to (n ex : Z) (m' : positive) (e' : Z) : Prop :=
  let s := Zdigits2 n - 53 in
  exists m1,
    (m1 = n / 2 ^ s \/ (m1 = n / 2 ^ s + 1 /\ n mod 2 ^ s <> 0))
    /\ ((m1 < 2 ^ 53 /\ Z.pos m' = m1 /\ e' = ex + s)
        \/ (m1 = 2 ^ 53 /\ Z.pos m' = 2 ^ 52 /\ e' = ex + s + 1)).

(** Exact values are compared as integers, in units of [2^-2200]: every
    exponent met below is above [-2200]. *)
Definition weight (e : Z) : Z := 2 ^ (e + 2200).

(** A positive normal binary64 number: a 53-bit mantissa and an exponent
    away from the subnormal and overflow ranges. *)
Definition normal (m : positive) (e : Z) : Prop :=
  2 ^ 52 <= Z.pos m < 2 ^ 53 /\ -1000 <= e <= 900.

(** The place of a number in the order of [<]: the sign class first, then
    the exponent and the mantissa, both negated for a negative number. *)
Definition order_key (x : float) : Z * Z * Z :=
  match x with
  | S754_infinity true => (-2, 0, 0)
  | S754_finite true m e => (-1, - e, - Z.pos m)
  | S754_zero _ => (0, 0, 0)
  | S754_nan => (0, 0, 0)
  | S754_finite false m e => (1, e, Z.pos m)
  | S754_infinity false => (2, 0, 0)
  end.

Definition key_lt (k1 k2 : Z * Z * Z) : Prop :=
  let '(a1, b1, c1) := k1 in
  let '(a2, b2, c2) := k2 in
  a1 < a2 \/ (a1 = a2 /\ (b1 < b2 \/ (b1 = b2 /\ c1 < c2))).

Definition key_le (k1 k2 : Z * Z * Z) : Prop :=
  let '(a1, b1, c1) := k1 in
  let '(a2, b2, c2) := k2 in
  a1 < a2 \/ (a1 = a2 /\ (b1 < b2 \/ (b1 = b2 /\ c1 <= c2))).

(** [lo <= x <= hi] and [lo <= x < hi], with Python's comparisons. *)
Definition in_closed (lo hi : Z) (x : float) : bool :=
  leb (of_int lo) x && leb x (of_int hi).

Definition in_half_open (lo hi : Z) (x : float) : bool :=
  leb (of_int lo) x && ltb x (of_int hi).

End Float64.

(** ** The process-wide random source

    [random.random()] returns [k / 2^53] for a 53-bit integer [k] taken from
    the generator, and [random.uniform(a, b)] is [a + (b - a) * random()].
    The generator itself is kept abstract: a state is the sequence of the
    integers it will deliver and a cursor into it. *)
Module PyRandom.

Record RandomState : Type := { draws : nat -> Z; cursor : nat }.

Definition getrandbits53 (g : RandomState) : Z * RandomState :=
  (draws g (cursor g) mod 2 ^ 53,
   {| draws := draws g; cursor := S (cursor g) |}).

Definition random (g : RandomState) : Float64.float * RandomState :=
  let (k, g') := getrandbits53 g in
  (binary_normalize Float64.prec Float64.emax k (-53) false, g').

Definition uniform (a b : Z) (g : RandomState) : Float64.float * RandomState :=
  let (r, g') := random g in
  (Float64.add (Float64.of_int a) (Float64.mul (Float64.of_int (b - a)) r), g').

(** A source that delivers the integers of a list, then zeros. *)
Definition replay (ks : list Z) : RandomState :=
  {| draws := fun i => nth i ks 0; cursor := 0 |}.

End PyRandom.

(** ** Python values and control

    Exceptions, computations that may raise and that act on the state of the
    process (the random source and the application log), dictionaries in
    insertion order, and the builtin [min] with a key function. *)
Module Py.

(** Exceptions: the two builtin classes the program meets, the exceptions
    of Werkzeug that stand for an HTTP status ([HTTPException] and its
    subclasses, under the name of the class, with the status code and the
    text [str] gives), and any other class of [Exception] under its name. *)
Inductive exn : Type :=
| ValueError (msg : string)
| TypeError (msg : string)
| HTTPException (class : string) (code : Z) (text : string)
| OtherError (class msg : string).

(** [str(e)] *)
Definition str (e : exn) : string :=
  match e with
  | ValueError msg => msg
  | TypeError msg => msg
  | HTTPException _ _ text => text
  | OtherError _ msg => msg
  end.

Inductive outcome (A : Type) : Type :=
| Return (a : A)
| Raise (e : exn).
Arguments Return {A} a.
Arguments Raise {A} e.

Record World : Type :=
  { random_state : PyRandom.RandomState; logged : list string }.

Definition Py (A : Type) : Type := World -> outcome A * World.

Definition ret {A : Type} (a : A) : Py A := fun w => (Return a, w).

Definition raise {A : Type} (e : exn) : Py A := fun w => (Raise e, w).

Definition bind {A B : Type} (c : Py A) (k : A -> Py B) : Py B :=
  fun w =>
    match c w with
    | (Return a, w') => k a w'
    | (Raise e, w') => (Raise e, w')
    end.

(** [try: body / except Exception as e: handler e] *)
Definition try_except {A : Type} (body : Py A) (handler : exn -> Py A) : Py A :=
  fun w =>
    match body w with
    | (Return a, w') => (Return a, w')
    | (Raise e, w') => handler e w'
    end.

Definition lift {A : Type} (o : outcome A) : Py A := fun w => (o, w).

Definition with_random {A : Type}
    (f : PyRandom.RandomState -> A * PyRandom.RandomState) : Py A :=
  fun w =>
    let (a, g') := f (random_state w) in
    (Return a, {| random_state := g'; logged := logged w |}).

(** [app.logger.error(msg)] *)
Definition logger_error (msg : string) : Py unit :=
  fun w =>
    (Return tt, {| random_state := random_state w; logged := logged w ++ [msg] |}).

Definition dict (V : Type) : Type := list (string * V).

Fixpoint dict_get {V : Type} (d : dict V) (k : string) : option V :=
  match d with
  | [] => None
  | (k', v) :: d' => if String.eqb k' k then Some v else dict_get d' k
  end.

(** [d[k] = v]: a present key keeps its place, a new one goes last. *)
Fixpoint dict_set {V : Type} (d : dict V) (k : string) (v : V) : dict V :=
  match d with
  | [] => [(k, v)]
  | (k', v') :: d' =>
      if String.eqb k' k then (k', v) :: d' else (k', v') :: dict_set d' k v
  end.

(** Iterating a dictionary yields its keys in insertion order. *)
Definition dict_keys {V : Type} (d : dict V) : list string := map fst d.

(** Every item of [items] has a key that is a number and satisfies [rel]. *)
Definition all_keys {A : Type} (key : A -> option Float64.float)
    (rel : Float64.float -> bool) (items : list A) : Prop :=
  forall x, In x items ->
    exists v, key x = Some v /\ Float64.is_nan v = false /\ rel v = true.

(** [a < b] on values that are a float or [None]. *)
Definition py_lt (a b : option Float64.float) : outcome bool :=
  match a, b with
  | Some x, Some y => Return (Float64.ltb x y)
  | None, Some _ =>
      Raise (TypeError "'<' not supported between instances of 'NoneType' and 'float'")
  | Some _, None =>
      Raise (TypeError "'<' not supported between instances of 'float' and 'NoneType'")
  | None, None =>
      Raise (TypeError "'<' not supported between instances of 'NoneType' and 'NoneType'")
  end.

(** The loop of [min(iterable, key=key)]: the item kept is replaced only by
    an item whose key is strictly less. *)
Fixpoint min_loop {A : Type} (key : A -> option Float64.float)
    (minitem : A) (minval : option Float64.float) (it : list A) : outcome A :=
  match it with
  | [] => Return minitem
  | item :: it' =>
      let val := key item in
      match py_lt val minval with
      | Raise e => Raise e
      | Return true => min_loop key item val it'
      | Return false => min_loop key minitem minval it'
      end
  end.

(** The text of the error for an empty iterable is the one of CPython up to
    3.11; later versions word it differently. *)
Definition py_min {A : Type} (iterable : list A)
    (key : A -> option Float64.float) : outcome A :=
  match iterable with
  | [] => Raise (ValueError "min() arg is an empty sequence")
  | item :: it => min_loop key item (key item) it
  end.

End Py.

Declare Scope py_scope.
Delimit Scope py_scope with py.
Notation "x <- c ;; k" := (Py.bind c (fun x => k))
  (at level 100, c at next level, right associativity) : py_scope.

(** ** The part of Flask the application uses *)
Module Flask.

(** The keyword arguments a template is rendered with; [None] is a variable
    that was not passed. *)
Record Context : Type :=
  { start : option string;
    end_ : option string;
    optimal_mode : option string;
    emissions : option (Py.dict Float64.float);
    error_message : option string }.

Definition no_context : Context :=
  {| start := None; end_ := None; optimal_mode := None;
     emissions := None; error_message := None |}.

Record Rendered : Type := { template : string; context : Context }.

Definition render_template (name : string) (ctx : Context) : Rendered :=
  {| template := name; context := ctx |}.

(** What a view or an error handler returns: a body, or a body and a status. *)
Inductive ViewReturn : Type :=
| Body (page : Rendered)
| BodyStatus (page : Rendered) (status : Z).

Record Response : Type := { body : option Rendered; status : Z }.

(** A body without a status is answered with 200. *)
Definition make_response (rv : ViewReturn) : Response :=
  match rv with
  | Body page => {| body := Some page; status := 200 |}
  | BodyStatus page code => {| body := Some page; status := code |}
  end.

(** The conditions the framework hands to error handlers: the exceptions of
    Werkzeug for a status, [OtherHTTP] being any one but the three named. *)
Inductive HTTPError : Type :=
| NotFound
| MethodNotAllowed
| InternalServerError (original : option Py.exn)
| OtherHTTP (code : Z).

Definition code (e : HTTPError) : Z :=
  match e with
  | NotFound => 404
  | MethodNotAllowed => 405
  | InternalServerError _ => 500
  | OtherHTTP c => c
  end.

(** What routing finds for a request.  Flask matches the URL against the
    rules of the application before it dispatches, and keeps the result on
    the request ([request.url_rule], or [request.routing_exception] when
    matching raised):
    - [View]: the rule of [index], with a method the view is called for;
    - [AutomaticOptions]: a rule, with the method OPTIONS, which Flask
      answers itself;
    - [StaticFile sent]: the rule [/static/<path:filename>], which
      [Flask(__name__)] registers for its own view of static files; [sent]
      is the response of that view when it finds the file, [None] when it
      raises [NotFound];
    - [Fails e]: matching raised [e] (no rule for the path, a rule that does
      not accept the method, a redirect). *)
Inductive Matched : Type :=
| View
| AutomaticOptions
| StaticFile (sent : option Response)
| Fails (e : HTTPError).

(** A request: its path, its method, its form, which is the fields sent or
    the exception that reading them raises, and what routing found for it. *)
Record Request : Type :=
  { path : string;
    method : string;
    form : Py.outcome (list (string * string));
    routing : Matched }.

(** The first value sent under [name], or [None]. *)
Fixpoint form_get (fields : list (string * string)) (name : string)
    : option string :=
  match fields with
  | [] => None
  | (n, v) :: fields' => if String.eqb n name then Some v else form_get fields' name
  end.

(** [request.form.get(name)] *)
Definition request_form_get (request : Request) (name : string)
    : Py.Py (option string) :=
  Py.bind (Py.lift (form request)) (fun fields => Py.ret (form_get fields name)).

(** Truth value of a string or [None]. *)
Definition truthy (s : option string) : bool :=
  match s with
  | None => false
  | Some s => negb (String.eqb s "")
  end.

(** A form field that is empty or absent. *)
Definition blank (field : option string) : Prop :=
  field = None \/ field = Some EmptyString.

End Flask.

(** ** The application *)
Module App.
Import Py Flask.
Local Open Scope py_scope.
Local Open Scope string_scope.

Definition Route : Type := (option string * option string)%type.

Definition get_emissions_data (route : Route) : Py (dict Float64.float) :=
  car <- with_random (PyRandom.uniform 100 200) ;;
  bike <- with_random (PyRandom.uniform 5 10) ;;
  public_transport <- with_random (PyRandom.uniform 20 50) ;;
  ret (dict_set (dict_set (dict_set [] "car" car) "bike" bike)
                "public_transport" public_transport).

Definition suggest_route (emissions_data : dict Float64.float) : outcome string :=
  py_min (dict_keys emissions_data) (dict_get emissions_data).

(** The body of the [try] block of [index]. *)
Definition index_try (request : Request) : Py ViewReturn :=
  if String.eqb (method request) "POST" then
    start_location <- request_form_get request "start" ;;
    end_location <- request_form_get request "end" ;;
    if negb (truthy start_location) || negb (truthy end_location) then
      raise (ValueError "Start and end locations must be provided.")
    else
      emissions_data <- get_emissions_data (start_location, end_location) ;;
      optimal_mode <- lift (suggest_route emissions_data) ;;
      ret (Body (render_template "index.html"
                   {| start := start_location;
                      end_ := end_location;
                      optimal_mode := Some optimal_mode;
                      emissions := Some emissions_data;
                      error_message := None |}))
  else
    ret (Body (render_template "index.html" no_context)).

Definition error_page (message : string) : Rendered :=
  render_template "error.html"
    {| start := None; end_ := None; optimal_mode := None;
       emissions := None; error_message := Some message |}.

(** The [except Exception as e] block of [index]. *)
Definition index_except (e : exn) : Py ViewReturn :=
  _ <- logger_error ("An error occurred: " ++ str e) ;;
  ret (Body (error_page (str e))).

Definition index (request : Request) : Py ViewReturn :=
  try_except (index_try request) index_except.

Definition not_found_error (error : HTTPError) : ViewReturn :=
  BodyStatus (error_page "Page not found.") 404.

Definition internal_error (error : HTTPError) : ViewReturn :=
  BodyStatus (error_page "Internal server error.") 500.

(** The handlers registered with [@app.errorhandler]. *)
Definition error_handler_spec (c : Z) : option (HTTPError -> ViewReturn) :=
  if Z.eqb c 404 then Some not_found_error
  else if Z.eqb c 500 then Some internal_error
  else None.

(** An error condition is answered by the handler registered for its code,
    or by a default response of that code. *)
Definition handle_http_exception (e : HTTPError) : Response :=
  match error_handler_spec (code e) with
  | Some handler => make_response (handler e)
  | None => {| body := None; status := code e |}
  end.

(** The result of routing that Flask's [match_request] left on the
    request. *)
Definition match_request (request : Request) : Matched := routing request.

(** [app.logger.error] as Flask calls it for an exception it answers with
    status 500. *)
Definition log_exception (request : Request) : Py unit :=
  logger_error ("Exception on " ++ path request ++ " [" ++ method request ++ "]").

(** An exception that leaves a view, with the configuration of the source,
    where exceptions propagate and key errors of the form are trapped in
    debug mode only.  An [HTTPException] is answered as the error condition
    of its code, except a trapped one, which is raised again.  Any other
    exception leaves the application when exceptions propagate; otherwise it
    is logged and becomes a 500 condition. *)
Definition handle_user_exception (debug : bool) (request : Request) (e : exn)
    : Py Response :=
  match e with
  | HTTPException class c _ =>
      if debug && String.eqb class "BadRequestKeyError" then raise e
      else ret (handle_http_exception (OtherHTTP c))
  | _ =>
      if debug then raise e
      else
        _ <- log_exception request ;;
        ret (handle_http_exception (InternalServerError (Some e)))
  end.

(** One request through the application, for a view function [view] bound
    to the rule of [index].  An exception of routing is answered as its
    error condition.  The view of static files answers with the file, or
    raises [NotFound]. *)
Definition full_dispatch_request (debug : bool)
    (view : Request -> Py ViewReturn)
    (request : Request) (w : World) : outcome Response * World :=
  match match_request request with
  | Fails e => (Return (handle_http_exception e), w)
  | AutomaticOptions => (Return {| body := None; status := 200 |}, w)
  | StaticFile (Some response) => (Return response, w)
  | StaticFile None => (Return (handle_http_exception NotFound), w)
  | View =>
      match view request w with
      | (Return rv, w') => (Return (make_response rv), w')
      | (Raise e, w') => handle_user_exception debug request e w'
      end
  end.

(** The application; [app.run(debug=True)] runs it with [debug = true]. *)
Definition wsgi_app (debug : bool) : Request -> World -> outcome Response * World :=
  full_dispatch_request debug index.

(** *** The handler with calls that may raise

    [index] above takes [render_template] and [app.logger.error] as calls
    that return: every template is found and every record is logged.  Both
    are calls into libraries and can raise: Jinja raises [TemplateNotFound]
    for a template that is not in the templates folder, and an exception of
    a filter set on the logger leaves [app.logger.error].  Here is the same
    function with the two calls as parameters. *)
Section Collaborators.

Variable render : string -> Context -> Py Rendered.
Variable log_error : string -> Py unit.

Definition index_try_with (request : Request) : Py ViewReturn :=
  if String.eqb (method request) "POST" then
    start_location <- request_form_get request "start" ;;
    end_location <- request_form_get request "end" ;;
    if negb (truthy start_location) || negb (truthy end_location) then
      raise (ValueError "Start and end locations must be provided.")
    else
      emissions_data <- get_emissions_data (start_location, end_location) ;;
      optimal_mode <- lift (suggest_route emissions_data) ;;
      page <- render "index.html"
                {| start := start_location;
                   end_ := end_location;
                   optimal_mode := Some optimal_mode;
                   emissions := Some emissions_data;
                   error_message := None |} ;;
      ret (Body page)
  else
    page <- render "index.html" no_context ;;
    ret (Body page).

Definition index_except_with (e : exn) : Py ViewReturn :=
  _ <- log_error ("An error occurred: " ++ str e) ;;
  page <- render "error.html"
            {| start := None; end_ := None; optimal_mode := None;
               emissions := None; error_message := Some (str e) |} ;;
  ret (Body page).

Definition index_with (request : Request) : Py ViewReturn :=
  try_except (index_try_with request) index_except_with.

End Collaborators.

(** [render_template] with a templates folder that holds [names] only. *)
Definition render_from (names : list string) (name : string) (ctx : Context)
    : Py Rendered :=
  if existsb (String.eqb name) names then ret (render_template name ctx)
  else raise (OtherError "TemplateNotFound" name).

(** A logger with a filter that raises. *)
Definition logger_filter_raising (msg : string) : Py unit :=
  raise (OtherError "RuntimeError" "filter failed").

(** A report whose values are all numbers. *)
Definition numeric (d : dict Float64.float) : Prop :=
  forall k v, dict_get d k = Some v -> Float64.is_nan v = false.

(** [k] is a key of [d] whose value is at most the value of every key. *)
Definition minimal_key (d : dict Float64.float) (k : string) : Prop :=
  exists v, dict_get d k = Some v
            /\ forall k' v', dict_get d k' = Some v' -> Float64.leb v v' = true.

(** Position of a key in the iteration order ([length] when absent). *)
Fixpoint key_index (keys : list string) (k : string) : nat :=
  match keys with
  | [] => O
  | k' :: keys' => if String.eqb k' k then O else S (key_index keys' k)
  end.

(** *** Inputs used as examples *)

(** A process whose generator delivers the integers [ks], with an empty log. *)
Definition world_of (ks : list Z) : World :=
  {| random_state := PyRandom.replay ks; logged := [] |}.

(** A POST of the form of the index page. *)
Definition post (fields : list (string * string)) : Request :=
  {| path := "/"; method := "POST"; form := Return fields; routing := View |}.

(** A GET of the index page. *)
Definition get_index : Request :=
  {| path := "/"; method := "GET"; form := Return []; routing := View |}.


(** A POST under the rule of static files, which does not accept POST. *)
Definition post_static : Request :=
  {| path := "/static/x"; method := "POST"; form := Return [];
     routing := Fails MethodNotAllowed |}.


(** A POST whose form cannot be read. *)
Definition post_unreadable : Request :=
  {| path := "/"; method := "POST";
     form := Raise (HTTPException "RequestEntityTooLarge" 413
                      "413 Request Entity Too Large: The data value transmitted exceeds the capacity limit.");
     routing := View |}.

(** Reports used as examples: one without ties, one where bike and
    public_transport tie for the minimum, one that starts with a value that
    is not a number. *)
Definition sample_report : dict Float64.float :=
  [("car", Float64.of_int 150); ("bike", Float64.of_int 7);
   ("public_transport", Float64.of_int 30)].

Definition tied_report : dict Float64.float :=
  [("car", Float64.of_int 7); ("bike", Float64.of_int 5);
   ("public_transport", Float64.of_int 5)].

Definition nan_report : dict Float64.float :=
  [("car", S754_nan); ("bike", Float64.of_int 7)].

End App.

(** ** The templates

    [templates/index.html] and [templates/error.html] as Jinja renders them
    under Flask: the text of the template is copied, [{{ x }}] is the
    HTML-escaped text of [x] (nothing for a variable that was not passed),
    and the lines of block tags keep their indentation and their line
    break. *)
Module Templates.
Import Py Flask.
Local Open Scope string_scope.

Definition nl : string := String "010" EmptyString.

(** The double quote. *)
Definition dq : string := String "034" EmptyString.

Definition attr (name value : string) : string := name ++ "=" ++ dq ++ value ++ dq.

Definition unlines (lines : list string) : string := String.concat nl lines.

(** [markupsafe.escape] on one character. *)
Definition escape_char (c : ascii) : string :=
  if Ascii.eqb c "&" then "&amp;"
  else if Ascii.eqb c "<" then "&lt;"
  else if Ascii.eqb c ">" then "&gt;"
  else if Ascii.eqb c "'" then "&#39;"
  else if Ascii.eqb c "034" then "&#34;"
  else String c EmptyString.

Fixpoint escape (s : string) : string :=
  match s with
  | EmptyString => EmptyString
  | String c s' => escape_char c ++ escape s'
  end.

(** [{{ x }}] *)
Definition show (x : option string) : string :=
  match x with
  | Some s => escape s
  | None => EmptyString
  end.

(** [templates/error.html] *)
Definition render_error_html (ctx : Context) : string :=
  unlines
    ["<!doctype html>";
     "<html>";
     "<head>";
     "    <title>Error - Green Travel Planner</title>";
     "</head>";
     "<body>";
     "    <h1>Error</h1>";
     "    <p>" ++ show (error_message ctx) ++ "</p>";
     "    <a " ++ attr "href" "/" ++ ">Return to Home</a>";
     "</body>";
     "</html>"].

(** The text of [index.html] before [{% if optimal_mode %}]. *)
Definition index_form : string :=
  unlines
    ["<!doctype html>";
     "<html>";
     "<head>";
     "    <title>Green Travel Planner</title>";
     "</head>";
     "<body>";
     "    <h1>Green Travel Planner</h1>";
     "    <form " ++ attr "action" "/" ++ " " ++ attr "method" "post" ++ ">";
     "        <label " ++ attr "for" "start" ++ ">Start Location:</label>";
     "        <input " ++ attr "type" "text" ++ " " ++ attr "id" "start" ++ " "
       ++ attr "name" "start" ++ " required>";
     "        <br>";
     "        <label " ++ attr "for" "end" ++ ">End Location:</label>";
     "        <input " ++ attr "type" "text" ++ " " ++ attr "id" "end" ++ " "
       ++ attr "name" "end" ++ " required>";
     "        <br>";
     "        <button " ++ attr "type" "submit" ++ ">Plan Travel</button>";
     "    </form>";
     "    "].

(** The text after [{% endif %}]. *)
Definition index_tail : string := unlines [""; "</body>"; "</html>"].

Section Rendering.

(** [str(round(x, 2))], the text of a value after the [round(2)] filter;
    the decimal printing of floats is not modelled. *)
Variable rounded_text : Float64.float -> string.

(** From [{% if optimal_mode %}] to [{% for ... %}]. *)
Definition result_open (ctx : Context) : string :=
  unlines
    [""; 
     "        <h2>Suggested Eco-Friendly Route</h2>";
     "        <p>From: " ++ show (start ctx) ++ "</p>";
     "        <p>To: " ++ show (end_ ctx) ++ "</p>";
     "        <p>Optimal Mode of Transport: " ++ show (optimal_mode ctx) ++ "</p>";
     "        <p>Emissions Data (g CO2e/km):</p>";
     "        <ul>";
     "            "].

(** One turn of the [for] loop. *)
Definition result_item (item : string * Float64.float) : string :=
  unlines
    [""; 
     "            <li>" ++ escape (fst item) ++ ": "
       ++ escape (rounded_text (snd item)) ++ "</li>";
     "            "].

(** From [{% endfor %}] to [{% endif %}]. *)
Definition result_close : string := unlines [""; "        </ul>"; "    "].

(** [templates/index.html]; [emissions.items()] on a variable that was not
    passed is an error. *)
Definition render_index_html (ctx : Context) : outcome string :=
  if truthy (optimal_mode ctx) then
    match emissions ctx with
    | Some report =>
        Return (index_form ++ result_open ctx
                ++ String.concat "" (map result_item report)
                ++ result_close ++ index_tail)
    | None => Raise (OtherError "UndefinedError" "'emissions' is undefined")
    end
  else Return (index_form ++ index_tail).

(** The HTML of a rendered page. *)
Definition html (page : Rendered) : outcome string :=
  if String.eqb (template page) "index.html" then render_index_html (context page)
  else if String.eqb (template page) "error.html" then
    Return (render_error_html (context page))
  else Raise (OtherError "TemplateNotFound" (template page)).

End Rendering.

(** Occurrences of a character in a text. *)
Fixpoint count (c : ascii) (s : string) : nat :=
  match s with
  | EmptyString => O
  | String a s' => ((if Ascii.eqb a c then 1 else 0) + count c s')%nat
  end.

(** The characters that open or close a tag or an attribute value. *)
Definition markup (c : ascii) : bool :=
  Ascii.eqb c "<" || Ascii.eqb c ">" || Ascii.eqb c "'" || Ascii.eqb c "034".

(** A text without any character that [escape] replaces. *)
Fixpoint plain (s : string) : bool :=
  match s with
  | EmptyString => true
  | String c s' => negb (Ascii.eqb c "&") && negb (markup c) && plain s'
  end.

(** What decides the tags of an index page: whether it has a result section,
    and of how many items. *)
Definition shape (ctx : Context) : bool * option nat :=
  (truthy (optimal_mode ctx), option_map (@List.length _) (emissions ctx)).

End Templates.

(** * Facts *)

(** ** Rounding to binary64

    [binary_round_aux] on an exact positive value with at least 53 digits,
    and what follows for products and sums of positive normal numbers. *)
Module Float64Facts.
Import Float64.

Section Shift.

Lemma iter_pos_nat {A : Type} (f : A -> A) (p : positive) :
  forall x, iter_pos f p x = Nat.iter (Pos.to_nat p) f x.
Proof.
  induction p as [p IH | p IH |]; intros x; simpl iter_pos.
  - rewrite !IH, Pos2Nat.inj_xI.
    replace (S (2 * Pos.to_nat p)) with (Pos.to_nat p + S (Pos.to_nat p))%nat by lia.
    rewrite Nat.iter_add, Nat.iter_succ_r. reflexivity.
  - rewrite !IH, Pos2Nat.inj_xO.
    replace (2 * Pos.to_nat p)%nat with (Pos.to_nat p + Pos.to_nat p)%nat by lia.
    rewrite Nat.iter_add. reflexivity.
  - reflexivity.
Qed.

Lemma shr_1_spec (m : Z) (r s : bool) :
  0 <= m ->
  shr_1 (Build_shr_record m r s) = Build_shr_record (m / 2) (Z.odd m) (r || s).
Proof.
  intros Hm. destruct m as [| [p | p |] |]; try lia; unfold shr_1.
  - reflexivity.
  - f_equal. rewrite Pos2Z.inj_xI. apply Z.div_unique with 1; lia.
  - f_equal. rewrite Pos2Z.inj_xO. apply Z.div_unique with 0; lia.
  - reflexivity.
Qed.

Lemma shr_iter_spec (m : Z) (j : nat) :
  0 <= m ->
  exists r s,
    Nat.iter j shr_1 (Build_shr_record m false false)
      = Build_shr_record (m / 2 ^ Z.of_nat j) r s
    /\ (m mod 2 ^ Z.of_nat j = 0 -> r = false /\ s = false).
Proof.
  intros Hm. induction j as [| j IH].
  - exists false, false. simpl. rewrite Z.div_1_r. auto.
  - destruct IH as (r & s & Hit & Hex).
    assert (Hp : 0 < 2 ^ Z.of_nat j) by (apply Z.pow_pos_nonneg; lia).
    exists (Z.odd (m / 2 ^ Z.of_nat j)), (r || s)%bool.
    rewrite Nat.iter_succ, Hit, shr_1_spec by (apply Z.div_pos; lia).
    rewrite Nat2Z.inj_succ, Z.pow_succ_r by lia.
    rewrite Z.div_div by lia. rewrite (Z.mul_comm 2). split; [reflexivity|].
    intros H0.
    rewrite Z.rem_mul_r in H0 by lia.
    pose proof (Z.mod_pos_bound m (2 ^ Z.of_nat j) Hp) as Hb.
    pose proof (Z.mod_pos_bound (m / 2 ^ Z.of_nat j) 2 ltac:(lia)) as Hb2.
    assert (Hm0 : m mod 2 ^ Z.of_nat j = 0) by nia.
    assert (Hd0 : (m / 2 ^ Z.of_nat j) mod 2 = 0) by nia.
    destruct (Hex Hm0) as [-> ->]. split; [|reflexivity].
    rewrite Zmod_odd in Hd0. destruct (Z.odd _); [discriminate | reflexivity].
Qed.

End Shift.

Section Rounding.

Lemma digits2_pos_bounds (p : positive) :
  2 ^ (Z.pos (digits2_pos p) - 1) <= Z.pos p < 2 ^ Z.pos (digits2_pos p).
Proof.
  induction p as [p IH | p IH |]; simpl digits2_pos.
  - rewrite Pos2Z.inj_succ, (Pos2Z.inj_xI p).
    replace (Z.succ (Z.pos (digits2_pos p)) - 1)
      with (Z.succ (Z.pos (digits2_pos p) - 1)) by lia.
    rewrite !Z.pow_succ_r by lia.
    revert IH.
    generalize (2 ^ (Z.pos (digits2_pos p) - 1)) (2 ^ Z.pos (digits2_pos p)). lia.
  - rewrite Pos2Z.inj_succ, (Pos2Z.inj_xO p).
    replace (Z.succ (Z.pos (digits2_pos p)) - 1)
      with (Z.succ (Z.pos (digits2_pos p) - 1)) by lia.
    rewrite !Z.pow_succ_r by lia.
    revert IH.
    generalize (2 ^ (Z.pos (digits2_pos p) - 1)) (2 ^ Z.pos (digits2_pos p)). lia.
  - simpl. lia.
Qed.

Lemma digits2_pos_unique (p : positive) (d : Z) :
  2 ^ (d - 1) <= Z.pos p < 2 ^ d -> Z.pos (digits2_pos p) = d.
Proof.
  intros [Hlo Hhi]. pose proof (digits2_pos_bounds p) as [Blo Bhi].
  assert (Hd : 0 < d).
  { destruct (Z_lt_le_dec 0 d) as [|Hle]; [assumption|].
    destruct (Z.eq_dec d 0) as [->|]; [simpl in Hhi; lia|].
    rewrite Z.pow_neg_r in Hhi by lia. lia. }
  destruct (Z_lt_le_dec (Z.pos (digits2_pos p)) d) as [Hlt|Hge].
  - assert (2 ^ Z.pos (digits2_pos p) <= 2 ^ (d - 1))
      by (apply Z.pow_le_mono_r; lia). lia.
  - destruct (Z_lt_le_dec d (Z.pos (digits2_pos p))) as [Hlt|Hle]; [|lia].
    assert (2 ^ d <= 2 ^ (Z.pos (digits2_pos p) - 1))
      by (apply Z.pow_le_mono_r; lia). lia.
Qed.

Lemma fexp_normal (e : Z) : -1074 <= e - 53 -> fexp prec emax e = e - 53.
Proof. unfold fexp, emin, prec, emax. lia. Qed.

Lemma shr_fexp_exact (m : positive) (e : Z) :
  53 <= Z.pos (digits2_pos m) ->
  -1074 <= Z.pos (digits2_pos m) + e - 53 ->
  exists r s,
    shr_fexp prec emax (Z.pos m) e loc_Exact
      = (Build_shr_record (Z.pos m / 2 ^ (Z.pos (digits2_pos m) - 53)) r s,
         e + (Z.pos (digits2_pos m) - 53))
    /\ (Z.pos m mod 2 ^ (Z.pos (digits2_pos m) - 53) = 0 -> r = false /\ s = false).
Proof.
  intros Hd He. unfold shr_fexp. simpl Zdigits2. simpl shr_record_of_loc.
  rewrite fexp_normal by lia.
  replace (Z.pos (digits2_pos m) + e - 53 - e) with (Z.pos (digits2_pos m) - 53) by lia.
  destruct (Z.pos (digits2_pos m) - 53) as [| k | k] eqn:Hk; try lia.
  - exists false, false. simpl shr. rewrite Z.div_1_r, Z.add_0_r. auto.
  - unfold shr. rewrite iter_pos_nat.
    destruct (shr_iter_spec (Z.pos m) (Pos.to_nat k) ltac:(lia)) as (r & s & Hit & Hex).
    rewrite positive_nat_Z in Hit, Hex. exists r, s. rewrite Hit. auto.
Qed.

Lemma round_nearest_even_cases (q : Z) (r s : bool) :
  let m1 := round_nearest_even q (loc_of_shr_record (Build_shr_record q r s)) in
  (m1 = q \/ m1 = q + 1) /\ (r = false /\ s = false -> m1 = q).
Proof.
  destruct r, s; simpl; try destruct (Z.even q); split; auto; intros [? ?]; discriminate.
Qed.

Lemma binary_round_aux_normal (n : positive) (ex : Z) :
  53 <= Z.pos (digits2_pos n) ->
  -1074 <= ex ->
  ex + Z.pos (digits2_pos n) - 53 < 971 ->
  exists m' e',
    binary_round_aux prec emax false (Z.pos n) ex loc_Exact = S754_finite false m' e'
    /\ rounds_to (Z.pos n) ex m' e'.
Proof.
  intros Hd Hlo Hhi. unfold binary_round_aux.
  destruct (shr_fexp_exact n ex Hd ltac:(lia)) as (r & s & -> & Hex).
  set (sh := Z.pos (digits2_pos n) - 53) in *.
  set (q := Z.pos n / 2 ^ sh) in *.
  cbv [shr_m].
  destruct (round_nearest_even_cases q r s) as [Hm1 Hm1x]. cbv zeta in Hm1, Hm1x.
  set (m1 := round_nearest_even q (loc_of_shr_record (Build_shr_record q r s))) in *.
  pose proof (digits2_pos_bounds n) as [Blo Bhi].
  assert (Hsh : 0 <= sh) by (unfold sh; lia).
  assert (Hp : 0 < 2 ^ sh) by (apply Z.pow_pos_nonneg; lia).
  assert (Hq : 2 ^ 52 <= q < 2 ^ 53).
  { replace (Z.pos (digits2_pos n)) with (53 + sh) in Bhi by (unfold sh; lia).
    replace (Z.pos (digits2_pos n) - 1) with (52 + sh) in Blo by (unfold sh; lia).
    rewrite Z.pow_add_r in Blo, Bhi by lia.
    unfold q. split.
    - apply Z.div_le_lower_bound; lia.
    - apply Z.div_lt_upper_bound; lia. }
  assert (Hm1p : 2 ^ 52 <= m1 <= 2 ^ 53) by lia.
  destruct m1 as [| pm1 |] eqn:Em1; try lia.
  assert (Hcase : Z.pos pm1 < 2 ^ 53 \/ Z.pos pm1 = 2 ^ 53) by lia.
  assert (Hwit : Z.pos pm1 = q \/ (Z.pos pm1 = q + 1 /\ Z.pos n mod 2 ^ sh <> 0)).
  { destruct Hm1 as [|Hs]; [left; assumption|].
    right. split; [assumption|]. intros H0. specialize (Hm1x (Hex H0)). lia. }
  destruct Hcase as [Hlt | Heq].
  - assert (Hd1 : Z.pos (digits2_pos pm1) = 53) by (apply digits2_pos_unique; lia).
    destruct (shr_fexp_exact pm1 (ex + sh) ltac:(lia) ltac:(lia)) as (r' & s' & -> & _).
    rewrite Hd1. simpl (53 - 53). rewrite Z.div_1_r, Z.add_0_r. cbv [shr_m].
    replace (ex + sh <=? emax - prec) with true
      by (symmetry; apply Z.leb_le; unfold emax, prec, sh; lia).
    exists pm1, (ex + sh). split; [reflexivity|].
    unfold rounds_to. simpl Zdigits2. fold sh. fold q.
    exists (Z.pos pm1). split; [assumption|]. left. auto.
  - assert (Hd1 : Z.pos (digits2_pos pm1) = 54) by (apply digits2_pos_unique; lia).
    destruct (shr_fexp_exact pm1 (ex + sh) ltac:(lia) ltac:(lia)) as (r' & s' & -> & _).
    rewrite Hd1, Heq. cbv [shr_m].
    change (2 ^ 53 / 2 ^ (54 - 53)) with (Z.pos (2 ^ 52)).
    replace (ex + sh + (54 - 53) <=? emax - prec) with true
      by (symmetry; apply Z.leb_le; unfold emax, prec, sh; lia).
    exists (2 ^ 52)%positive, (ex + sh + (54 - 53)). split; [reflexivity|].
    unfold rounds_to. simpl Zdigits2. fold sh. fold q.
    exists (Z.pos pm1). split; [assumption|]. right.
    split; [assumption | split; [reflexivity | lia]].
Qed.

End Rounding.

Section Order.

Lemma weight_pos (e : Z) : -2200 <= e -> 0 < weight e.
Proof. intros. unfold weight. apply Z.pow_pos_nonneg; lia. Qed.

Lemma weight_add (e s : Z) :
  -2200 <= e -> 0 <= s -> weight (e + s) = weight e * 2 ^ s.
Proof.
  intros. unfold weight.
  replace (e + s + 2200) with (e + 2200 + s) by lia.
  apply Z.pow_add_r; lia.
Qed.

Lemma weight_le (e1 e2 : Z) : -2200 <= e1 <= e2 -> weight e1 <= weight e2.
Proof. intros. unfold weight. apply Z.pow_le_mono_r; lia. Qed.

Lemma weight_succ (e : Z) : -2200 <= e -> weight (e + 1) = 2 * weight e.
Proof. intros. rewrite weight_add by lia. change (2 ^ 1) with 2. lia. Qed.

(** What [rounds_to] says in terms of the quotient and the dropped bits. *)
Lemma rounds_to_facts (n : positive) (ex : Z) (m' : positive) (e' : Z) :
  53 <= Z.pos (digits2_pos n) ->
  rounds_to (Z.pos n) ex m' e' ->
  exists s P q m1,
    0 <= s /\ P = 2 ^ s /\ 0 < P
    /\ q * P <= Z.pos n < (q + 1) * P
    /\ 2 ^ 52 <= q < 2 ^ 53
    /\ (m1 = q \/ (m1 = q + 1 /\ q * P < Z.pos n))
    /\ ((m1 < 2 ^ 53 /\ Z.pos m' = m1 /\ e' = ex + s)
        \/ (m1 = 2 ^ 53 /\ Z.pos m' = 2 ^ 52 /\ e' = ex + s + 1)).
Proof.
  intros Hd (m1 & Hm1 & Hc). simpl Zdigits2 in Hm1, Hc.
  set (s := Z.pos (digits2_pos n) - 53) in *.
  assert (Hs : 0 <= s) by (unfold s; lia).
  assert (HP : 0 < 2 ^ s) by (apply Z.pow_pos_nonneg; lia).
  pose proof (digits2_pos_bounds n) as [Blo Bhi].
  replace (Z.pos (digits2_pos n)) with (53 + s) in Bhi by (unfold s; lia).
  replace (Z.pos (digits2_pos n) - 1) with (52 + s) in Blo by (unfold s; lia).
  rewrite Z.pow_add_r in Blo, Bhi by lia.
  pose proof (Z.div_mod (Z.pos n) (2 ^ s) ltac:(lia)) as Hdm.
  pose proof (Z.mod_pos_bound (Z.pos n) (2 ^ s) HP) as Hmb.
  exists s, (2 ^ s), (Z.pos n / 2 ^ s), m1.
  assert (Hqlo : 2 ^ 52 <= Z.pos n / 2 ^ s) by (apply Z.div_le_lower_bound; lia).
  assert (Hqhi : Z.pos n / 2 ^ s < 2 ^ 53) by (apply Z.div_lt_upper_bound; lia).
  assert (Hm1' : m1 = Z.pos n / 2 ^ s
                 \/ (m1 = Z.pos n / 2 ^ s + 1 /\ Z.pos n / 2 ^ s * 2 ^ s < Z.pos n)).
  { destruct Hm1 as [|[? ?]]; [left; assumption | right; split; [assumption | lia]]. }
  split; [assumption|]. split; [reflexivity|]. split; [assumption|].
  split; [lia|]. split; [lia|]. split; assumption.
Qed.

Lemma rounds_to_lower (n : positive) (ex : Z) (m' : positive) (e' a ea : Z) :
  53 <= Z.pos (digits2_pos n) -> -2200 <= ex -> -2200 <= ea ->
  2 ^ 52 <= a < 2 ^ 53 ->
  rounds_to (Z.pos n) ex m' e' ->
  a * weight ea <= Z.pos n * weight ex ->
  ea < e' \/ (ea = e' /\ a <= Z.pos m').
Proof.
  intros Hd Hex Hea Ha Hr Hle.
  destruct (rounds_to_facts n ex m' e' Hd Hr)
    as (s & P & q & m1 & Hs & -> & HP & Hn & Hq & Hm1 & Hc).
  pose proof (weight_pos ex Hex) as HW.
  pose proof (weight_add ex s Hex Hs) as HWE.
  set (W := weight ex) in *. set (P := 2 ^ s) in *.
  assert (HnW : Z.pos n * W < (q + 1) * (W * P)) by nia.
  destruct (Z_lt_le_dec (ex + s) ea) as [Hgt | Hle'].
  - exfalso.
    pose proof (weight_le (ex + s + 1) ea ltac:(lia)) as Hmono.
    rewrite weight_succ, HWE in Hmono by lia.
    set (WP := W * P) in *. assert (0 < WP) by (unfold WP; nia).
    assert (2 ^ 52 * weight ea <= a * weight ea) by nia.
    nia.
  - destruct (Z.eq_dec ea (ex + s)) as [-> | Hne].
    + rewrite HWE in Hle.
      assert (a * P <= Z.pos n) by nia.
      assert (a <= q) by nia.
      destruct Hc as [(? & ? & ->) | (? & ? & ->)]; [right | left]; lia.
    + left. destruct Hc as [(? & ? & ->) | (? & ? & ->)]; lia.
Qed.

Lemma rounds_to_upper (n : positive) (ex : Z) (m' : positive) (e' a ea : Z) :
  53 <= Z.pos (digits2_pos n) -> -2200 <= ex -> -2200 <= ea ->
  2 ^ 52 <= a < 2 ^ 53 ->
  rounds_to (Z.pos n) ex m' e' ->
  Z.pos n * weight ex <= a * weight ea ->
  e' < ea \/ (e' = ea /\ Z.pos m' <= a).
Proof.
  intros Hd Hex Hea Ha Hr Hle.
  destruct (rounds_to_facts n ex m' e' Hd Hr)
    as (s & P & q & m1 & Hs & -> & HP & Hn & Hq & Hm1 & Hc).
  pose proof (weight_pos ex Hex) as HW.
  pose proof (weight_pos ea Hea) as HWa.
  pose proof (weight_add ex s Hex Hs) as HWE.
  set (W := weight ex) in *. set (P := 2 ^ s) in *.
  assert (HnW : q * (W * P) <= Z.pos n * W) by nia.
  destruct (Z_lt_le_dec ea (ex + s)) as [Hlt | Hge].
  - exfalso.
    pose proof (weight_le (ea + 1) (ex + s) ltac:(lia)) as Hmono.
    rewrite weight_succ, HWE in Hmono by lia.
    set (WP := W * P) in *. assert (0 < WP) by (unfold WP; nia).
    assert (a * weight ea < 2 ^ 53 * weight ea) by nia.
    nia.
  - destruct (Z.eq_dec ea (ex + s)) as [-> | Hne].
    + rewrite HWE in Hle.
      assert (Z.pos n <= a * P) by nia.
      assert (m1 <= a).
      { destruct Hm1 as [-> | [-> Hstrict]]; nia. }
      destruct Hc as [(? & ? & ->) | (? & ? & ->)]; [right | exfalso]; lia.
    + destruct Hc as [(? & ? & ->) | (? & ? & ->)]; [left; lia|].
      destruct (Z.eq_dec (ex + s + 1) ea); [right | left]; lia.
Qed.

Lemma rounds_to_normal (n : positive) (ex : Z) (m' : positive) (e' : Z) :
  53 <= Z.pos (digits2_pos n) ->
  rounds_to (Z.pos n) ex m' e' ->
  2 ^ 52 <= Z.pos m' < 2 ^ 53
  /\ ex + (Z.pos (digits2_pos n) - 53) <= e' <= ex + (Z.pos (digits2_pos n) - 53) + 1.
Proof.
  intros Hd Hr.
  destruct (rounds_to_facts n ex m' e' Hd Hr)
    as (s & P & q & m1 & Hs & -> & HP & Hn & Hq & Hm1 & Hc).
  destruct Hr as (m1' & _ & Hc'). simpl Zdigits2 in Hc'.
  destruct Hc as [(? & ? & ?) | (? & ? & ?)], Hc' as [(? & ? & ?) | (? & ? & ?)]; lia.
Qed.

Lemma rounds_to_exact (n : positive) (ex : Z) (m' : positive) (e' : Z) :
  Z.pos (digits2_pos n) = 53 ->
  rounds_to (Z.pos n) ex m' e' -> m' = n /\ e' = ex.
Proof.
  intros Hd (m1 & Hm1 & Hc). simpl Zdigits2 in Hm1, Hc. rewrite Hd in Hm1, Hc.
  change (2 ^ (53 - 53)) with 1 in Hm1. rewrite Z.div_1_r, Z.mod_1_r in Hm1.
  pose proof (digits2_pos_bounds n) as [_ Bhi]. rewrite Hd in Bhi.
  assert (m1 = Z.pos n) by (destruct Hm1 as [|[_ ?]]; [assumption | congruence]).
  destruct Hc as [(? & ? & ?) | (? & ? & ?)]; [|lia].
  split; [|lia]. apply Pos2Z.inj. lia.
Qed.

Lemma leb_finite_pos (a b : positive) (ea eb : Z) :
  leb (S754_finite false a ea) (S754_finite false b eb) = true
  <-> ea < eb \/ (ea = eb /\ Z.pos a <= Z.pos b).
Proof.
  unfold leb, SFleb, SFcompare.
  change (Pos.compare_cont Eq a b) with (Pos.compare a b).
  destruct (Z.compare_spec ea eb); destruct (Pos.compare_spec a b);
    split; intros; try reflexivity; try discriminate; lia.
Qed.

End Order.

Section Operations.

Lemma normal_digits (m : positive) :
  2 ^ 52 <= Z.pos m < 2 ^ 53 -> Z.pos (digits2_pos m) = 53.
Proof. intros. apply digits2_pos_unique. exact H. Qed.

Lemma digits_ge (n : positive) (d : Z) :
  2 ^ (d - 1) <= Z.pos n -> d <= Z.pos (digits2_pos n).
Proof.
  intros Hn. pose proof (digits2_pos_bounds n) as [_ Bhi].
  destruct (Z_lt_le_dec (Z.pos (digits2_pos n)) d) as [Hlt|]; [|assumption].
  assert (2 ^ Z.pos (digits2_pos n) <= 2 ^ (d - 1)) by (apply Z.pow_le_mono_r; lia).
  lia.
Qed.

Lemma digits_le (n : positive) (d : Z) :
  0 <= d -> Z.pos n < 2 ^ d -> Z.pos (digits2_pos n) <= d.
Proof.
  intros Hd Hn. pose proof (digits2_pos_bounds n) as [Blo _].
  destruct (Z_lt_le_dec d (Z.pos (digits2_pos n))) as [Hlt|]; [|assumption].
  assert (2 ^ d <= 2 ^ (Z.pos (digits2_pos n) - 1)) by (apply Z.pow_le_mono_r; lia).
  lia.
Qed.

(** Multiplying a normal number by a normal number below one: the product
    is a normal number and does not exceed the first factor. *)
Lemma mul_below_one (mx : positive) (ex : Z) (my : positive) (ey : Z) :
  normal mx ex -> 2 ^ 52 <= Z.pos my < 2 ^ 53 -> -110 <= ey <= -53 -> -52 <= ex ->
  exists mp ep,
    mul (S754_finite false mx ex) (S754_finite false my ey) = S754_finite false mp ep
    /\ normal mp ep
    /\ leb (S754_finite false mp ep) (S754_finite false mx ex) = true.
Proof.
  intros [Hmx Hex] Hmy Hey Hex'. unfold mul, SFmul. simpl xorb.
  assert (Hprod : 2 ^ 104 <= Z.pos (mx * my) < 2 ^ 106).
  { rewrite Pos2Z.inj_mul. split; nia. }
  assert (Hdlo : 105 <= Z.pos (digits2_pos (mx * my))) by (apply digits_ge; simpl; lia).
  assert (Hdhi : Z.pos (digits2_pos (mx * my)) <= 106) by (apply digits_le; lia).
  destruct (binary_round_aux_normal (mx * my) (ex + ey)) as (mp & ep & -> & Hr); try lia.
  destruct (rounds_to_normal (mx * my) (ex + ey) mp ep ltac:(lia) Hr) as [Hmp Hep].
  assert (Hup : ep < ex \/ (ep = ex /\ Z.pos mp <= Z.pos mx)).
  { apply (rounds_to_upper (mx * my) (ex + ey) mp ep (Z.pos mx) ex);
      try lia; try assumption.
    rewrite Pos2Z.inj_mul.
    replace (weight ex) with (weight (ex + ey) * 2 ^ (- ey))
      by (rewrite <- weight_add by lia; f_equal; lia).
    pose proof (weight_pos (ex + ey) ltac:(lia)).
    assert (2 ^ 53 <= 2 ^ (- ey)) by (apply Z.pow_le_mono_r; lia).
    nia. }
  exists mp, ep. split; [reflexivity|]. split; [split; lia|].
  apply leb_finite_pos. exact Hup.
Qed.

Lemma pos_iter_xO (m d : positive) : Z.pos (Pos.iter xO m d) = Z.pos m * 2 ^ Z.pos d.
Proof.
  induction d as [| d IH] using Pos.peano_ind.
  - simpl Pos.iter. rewrite (Pos2Z.inj_xO m). change (2 ^ 1) with 2. lia.
  - rewrite Pos.iter_succ, (Pos2Z.inj_xO (Pos.iter xO m d)), IH, Pos2Z.inj_succ.
    rewrite Z.pow_succ_r by lia. lia.
Qed.

Lemma shl_align_fst (m : positive) (e e' : Z) :
  e' <= e -> Z.pos (fst (shl_align m e e')) = Z.pos m * 2 ^ (e - e').
Proof.
  intros H. unfold shl_align.
  destruct (e' - e) as [| d | d] eqn:Hd; try lia.
  - replace (e - e') with 0 by lia. simpl fst. lia.
  - simpl fst. rewrite pos_iter_xO. f_equal. f_equal. lia.
Qed.

Lemma shl_align_none (m : positive) (e e' : Z) :
  e <= e' -> shl_align m e e' = (m, e).
Proof.
  intros H. unfold shl_align. destruct (e' - e) eqn:Hd; try reflexivity; lia.
Qed.

(** Adding two positive normal numbers: the sum is a normal number, at least
    the first term, and at most any normal number that the exact sum does
    not exceed. *)
Lemma add_between (mx : positive) (ex : Z) (mp : positive) (ep : Z)
      (mb : positive) (eb : Z) :
  normal mx ex -> normal mp ep -> normal mb eb ->
  Z.pos mx * weight ex + Z.pos mp * weight ep <= Z.pos mb * weight eb ->
  exists mv ev,
    add (S754_finite false mx ex) (S754_finite false mp ep) = S754_finite false mv ev
    /\ leb (S754_finite false mx ex) (S754_finite false mv ev) = true
    /\ leb (S754_finite false mv ev) (S754_finite false mb eb) = true.
Proof.
  intros [Hmx Hex] [Hmp Hep] [Hmb Heb] Hsum. unfold add, SFadd. cbv [cond_Zopp].
  set (ez := Z.min ex ep).
  pose proof (shl_align_fst mx ex ez ltac:(unfold ez; lia)) as Hax.
  pose proof (shl_align_fst mp ep ez ltac:(unfold ez; lia)) as Hap.
  set (ax := fst (shl_align mx ex ez)) in *.
  set (ap := fst (shl_align mp ep ez)) in *.
  change (Z.pos ax + Z.pos ap) with (Z.pos (ax + ap)).
  assert (Hn : Z.pos (ax + ap) = Z.pos mx * 2 ^ (ex - ez) + Z.pos mp * 2 ^ (ep - ez))
    by (rewrite Pos2Z.inj_add; lia).
  assert (Hpx : 1 <= 2 ^ (ex - ez))
    by (change 1 with (2 ^ 0); apply Z.pow_le_mono_r; unfold ez; lia).
  assert (Hpp : 1 <= 2 ^ (ep - ez))
    by (change 1 with (2 ^ 0); apply Z.pow_le_mono_r; unfold ez; lia).
  assert (Hdlo : 53 <= Z.pos (digits2_pos (ax + ap)))
    by (apply digits_ge; simpl (53 - 1); nia).
  set (emx := Z.max ex ep).
  assert (Hdhi : Z.pos (digits2_pos (ax + ap)) <= 54 + (emx - ez)).
  { apply digits_le; [unfold emx, ez; lia|].
    rewrite Z.pow_add_r by (unfold emx, ez; lia).
    assert (2 ^ (ex - ez) <= 2 ^ (emx - ez))
      by (apply Z.pow_le_mono_r; unfold emx, ez; lia).
    assert (2 ^ (ep - ez) <= 2 ^ (emx - ez))
      by (apply Z.pow_le_mono_r; unfold emx, ez; lia).
    change (2 ^ 54) with (2 * 2 ^ 53). nia. }
  unfold binary_normalize, binary_round.
  rewrite shl_align_none by (rewrite fexp_normal; unfold ez; lia).
  destruct (binary_round_aux_normal (ax + ap) ez) as (mv & ev & -> & Hr);
    try (unfold emx, ez in *; lia).
  exists mv, ev. split; [reflexivity|].
  assert (Hwx : weight ex = weight ez * 2 ^ (ex - ez))
    by (rewrite <- weight_add by (unfold ez; lia); f_equal; lia).
  assert (Hwp : weight ep = weight ez * 2 ^ (ep - ez))
    by (rewrite <- weight_add by (unfold ez; lia); f_equal; lia).
  pose proof (weight_pos ez ltac:(unfold ez; lia)) as HW.
  split; apply leb_finite_pos.
  - apply (rounds_to_lower (ax + ap) ez mv ev (Z.pos mx) ex);
      try assumption; try (unfold ez; lia).
    rewrite Hn, Hwx. nia.
  - apply (rounds_to_upper (ax + ap) ez mv ev (Z.pos mb) eb);
      try assumption; try (unfold ez; lia).
    rewrite Hn. rewrite Hwx, Hwp in Hsum. nia.
Qed.

End Operations.
End Float64Facts.

(** ** The random source and [uniform] *)
Module RandomFacts.
Import Float64 Float64Facts PyRandom.

Lemma shl_align_down (m : positive) (e e' : Z) :
  e' <= e ->
  exists m2, shl_align m e e' = (m2, e') /\ Z.pos m2 = Z.pos m * 2 ^ (e - e').
Proof.
  intros H. unfold shl_align.
  destruct (e' - e) as [| d | d] eqn:Hd; try lia.
  - exists m. replace e' with e by lia. rewrite Z.sub_diag.
    split; [reflexivity | simpl; lia].
  - exists (Pos.iter xO m d). split; [reflexivity|].
    rewrite pos_iter_xO. f_equal. f_equal. lia.
Qed.

(** [random()] is zero or a positive normal number below one. *)
Lemma random_value (k : Z) :
  0 <= k < 2 ^ 53 ->
  binary_normalize prec emax k (-53) false = S754_zero false
  \/ exists m e,
       binary_normalize prec emax k (-53) false = S754_finite false m e
       /\ 2 ^ 52 <= Z.pos m < 2 ^ 53 /\ -110 <= e <= -53.
Proof.
  intros Hk. destruct k as [| p | p]; [left; reflexivity | right | lia].
  unfold binary_normalize, binary_round.
  pose proof (digits2_pos_bounds p) as [Blo Bhi].
  assert (Hd : Z.pos (digits2_pos p) <= 53) by (apply digits_le; lia).
  set (d := Z.pos (digits2_pos p)) in *.
  rewrite fexp_normal by lia.
  destruct (shl_align_down p (-53) (d + -53 - 53) ltac:(lia)) as (m2 & -> & Hm2).
  replace (-53 - (d + -53 - 53)) with (53 - d) in Hm2 by lia.
  assert (Hnorm : 2 ^ 52 <= Z.pos m2 < 2 ^ 53).
  { assert (E52 : 2 ^ (d - 1) * 2 ^ (53 - d) = 2 ^ 52)
      by (rewrite <- Z.pow_add_r by lia; f_equal; lia).
    assert (E53 : 2 ^ d * 2 ^ (53 - d) = 2 ^ 53)
      by (rewrite <- Z.pow_add_r by lia; f_equal; lia).
    assert (0 < 2 ^ (53 - d)) by (apply Z.pow_pos_nonneg; lia).
    rewrite Hm2, <- E52, <- E53. split; nia. }
  pose proof (normal_digits m2 Hnorm) as Hd2.
  destruct (binary_round_aux_normal m2 (d + -53 - 53)) as (m' & e' & -> & Hr); try lia.
  destruct (rounds_to_exact m2 _ m' e' Hd2 Hr) as [-> ->].
  exists m2, (d + -53 - 53). split; [reflexivity|]. split; [assumption | lia].
Qed.

Lemma normal_weight_le (ma : positive) (ea : Z) (mb : positive) (eb : Z) :
  normal ma ea -> normal mb eb ->
  (Z.pos ma * weight ea <= Z.pos mb * weight eb
   <-> ea < eb \/ (ea = eb /\ Z.pos ma <= Z.pos mb)).
Proof.
  intros [Hma Hea] [Hmb Heb].
  pose proof (weight_pos ea ltac:(lia)) as Wa.
  pose proof (weight_pos eb ltac:(lia)) as Wb.
  split.
  - intros Hle. destruct (Z_lt_le_dec ea eb) as [|Hge]; [left; assumption | right].
    destruct (Z.eq_dec ea eb) as [-> | Hne]; [split; [reflexivity | nia]|].
    exfalso. pose proof (weight_le (eb + 1) ea ltac:(lia)) as Hm.
    rewrite weight_succ in Hm by lia. nia.
  - intros [Hlt | [-> Hle]]; [|nia].
    pose proof (weight_le (ea + 1) eb ltac:(lia)) as Hm.
    rewrite weight_succ in Hm by lia. nia.
Qed.

(** [uniform(a, b)] lies between [a] and [b], both included, when [a],
    [b - a] and [b] are positive normal numbers with [a + (b - a) = b]. *)
Lemma uniform_in_closed (a b : Z)
      (ma : positive) (ea : Z) (mc : positive) (ec : Z) (mb : positive) (eb : Z) :
  of_int a = S754_finite false ma ea ->
  of_int (b - a) = S754_finite false mc ec ->
  of_int b = S754_finite false mb eb ->
  normal ma ea -> normal mc ec -> normal mb eb -> -52 <= ec ->
  Z.pos ma * weight ea + Z.pos mc * weight ec = Z.pos mb * weight eb ->
  forall g, in_closed a b (fst (uniform a b g)) = true.
Proof.
  intros Ha Hc Hb Na Nc Nb Hec Hsum g.
  unfold in_closed, uniform, random, getrandbits53. cbv [fst].
  pose proof (Z.mod_pos_bound (draws g (cursor g)) (2 ^ 53) ltac:(lia)) as Hk.
  rewrite Ha, Hc, Hb.
  pose proof (weight_pos ec ltac:(destruct Nc; lia)) as Wc.
  destruct (random_value _ Hk) as [-> | (mr & er & -> & Hmr & Her)].
  - change (mul (S754_finite false mc ec) (S754_zero false)) with (S754_zero false).
    change (add (S754_finite false ma ea) (S754_zero false))
      with (S754_finite false ma ea).
    apply andb_true_intro. split; apply leb_finite_pos.
    + right. split; [reflexivity | lia].
    + apply normal_weight_le; try assumption. nia.
  - destruct (mul_below_one mc ec mr er Nc Hmr Her Hec) as (mp & ep & -> & Np & Hle).
    apply leb_finite_pos, normal_weight_le in Hle; try assumption.
    destruct (add_between ma ea mp ep mb eb Na Np Nb ltac:(lia))
      as (mv & ev & -> & Hlo & Hhi).
    rewrite Hlo, Hhi. reflexivity.
Qed.

End RandomFacts.

(** ** The order of floats that are numbers *)
Module OrderFacts.
Import Float64.

(** [SFcompare] on all shapes of two floats. *)
Ltac compare_shapes x y :=
  unfold ltb, leb, SFltb, SFleb, SFcompare;
  destruct x as [[|] | [|] | | [|] ?mx ?ex], y as [[|] | [|] | | [|] ?my ?ey];
  try discriminate; simpl;
  repeat match goal with
         | |- context [Pos.compare_cont Eq ?a ?b] =>
             change (Pos.compare_cont Eq a b) with (Pos.compare a b);
             destruct (Pos.compare_spec a b)
         | |- context [Z.compare ?a ?b] => destruct (Z.compare_spec a b)
         end;
  simpl; split; intros; try reflexivity; try discriminate; lia.

Lemma ltb_order_key (x y : float) :
  is_nan x = false -> is_nan y = false ->
  (ltb x y = true <-> key_lt (order_key x) (order_key y)).
Proof. intros Hx Hy. compare_shapes x y. Qed.

Lemma leb_order_key (x y : float) :
  is_nan x = false -> is_nan y = false ->
  (leb x y = true <-> key_le (order_key x) (order_key y)).
Proof. intros Hx Hy. compare_shapes x y. Qed.

(** Comparisons of numbers, in the hypotheses and in the goal, become
    comparisons of their keys, which [lia] decides. *)
Ltac by_keys :=
  repeat match goal with
         | H : ltb ?x ?y = true |- _ => apply ltb_order_key in H; [|assumption..]
         | H : leb ?x ?y = true |- _ => apply leb_order_key in H; [|assumption..]
         | H : ltb ?x ?y = false |- _ =>
             assert (~ key_lt (order_key x) (order_key y))
               by (let K := fresh in
                   intros K; apply ltb_order_key in K; [congruence | assumption..]);
             clear H
         end;
  try (apply ltb_order_key; [assumption.. |]);
  try (apply leb_order_key; [assumption.. |]);
  repeat match goal with
         | |- context [order_key ?x] =>
             let a := fresh "a" in let b := fresh "b" in let c := fresh "c" in
             destruct (order_key x) as [[a b] c]
         | H : context [order_key ?x] |- _ =>
             let a := fresh "a" in let b := fresh "b" in let c := fresh "c" in
             destruct (order_key x) as [[a b] c]
         end;
  simpl in *; lia.

Lemma leb_refl (x : float) : is_nan x = false -> leb x x = true.
Proof. intros Hx. by_keys. Qed.

Lemma not_ltb_leb (x y : float) :
  is_nan x = false -> is_nan y = false -> ltb x y = false -> leb y x = true.
Proof. intros Hx Hy Hlt. by_keys. Qed.

Lemma ltb_leb_trans (x y z : float) :
  is_nan x = false -> is_nan y = false -> is_nan z = false ->
  ltb x y = true -> leb y z = true -> ltb x z = true.
Proof. intros Hx Hy Hz Hxy Hyz. by_keys. Qed.

Lemma ltb_trans (x y z : float) :
  is_nan x = false -> is_nan y = false -> is_nan z = false ->
  ltb x y = true -> ltb y z = true -> ltb x z = true.
Proof. intros Hx Hy Hz Hxy Hyz. by_keys. Qed.

Lemma ltb_leb (x y : float) :
  is_nan x = false -> is_nan y = false -> ltb x y = true -> leb x y = true.
Proof. intros Hx Hy Hxy. by_keys. Qed.

Lemma ltb_leb_absurd (x y : float) :
  is_nan x = false -> is_nan y = false ->
  ltb x y = true -> leb y x = true -> False.
Proof. intros Hx Hy Hxy Hyx. by_keys. Qed.

Lemma leb_is_number (x y : float) :
  leb x y = true -> is_nan x = false /\ is_nan y = false.
Proof.
  unfold leb, SFleb, SFcompare.
  destruct x as [? | ? | | ? ? ?], y as [? | ? | | ? ? ?];
    intros H; try discriminate; split; reflexivity.
Qed.

End OrderFacts.

(** ** The selector *)
Module SelectorFacts.
Import Float64 OrderFacts Py App.

Section MinLoop.

Context {A : Type} (key : A -> option float).

Lemma all_keys_app (rel : float -> bool) (l1 l2 : list A) :
  all_keys key rel l1 -> all_keys key rel l2 -> all_keys key rel (l1 ++ l2).
Proof.
  intros H1 H2 x Hin. apply in_app_or in Hin. destruct Hin; auto.
Qed.

Lemma all_keys_cons (rel : float -> bool) (x : A) (v : float) (l : list A) :
  key x = Some v -> is_nan v = false -> rel v = true ->
  all_keys key rel l -> all_keys key rel (x :: l).
Proof.
  intros Hk Hn Hr Hl y [<- | Hin]; [exists v; auto | auto].
Qed.

Lemma all_keys_weaken (rel rel' : float -> bool) (l : list A) :
  (forall v, is_nan v = false -> rel v = true -> rel' v = true) ->
  all_keys key rel l -> all_keys key rel' l.
Proof.
  intros Himp Hl x Hin. destruct (Hl x Hin) as (v & Hk & Hn & Hr).
  exists v. auto.
Qed.

(** The loop returns the first item whose key is least: the items before it
    have strictly greater keys, the items after it have keys at least as
    great. *)
Lemma min_loop_first (it : list A) :
  forall (pre : list A) (minitem : A) (mv : float) (mid : list A),
    key minitem = Some mv -> is_nan mv = false ->
    all_keys key (ltb mv) pre ->
    all_keys key (leb mv) mid ->
    all_keys key (fun _ => true) it ->
    exists r vr pre' post,
      min_loop key minitem (Some mv) it = Return r
      /\ key r = Some vr /\ is_nan vr = false
      /\ pre ++ minitem :: mid ++ it = pre' ++ r :: post
      /\ all_keys key (ltb vr) pre'
      /\ all_keys key (leb vr) post.
Proof.
  induction it as [| item it' IH]; intros pre minitem mv mid Hk Hn Hpre Hmid Hit.
  - exists minitem, mv, pre, mid. rewrite app_nil_r. simpl. auto 10.
  - destruct (Hit item (or_introl eq_refl)) as (v & Hkv & Hnv & _).
    assert (Hit' : all_keys key (fun _ => true) it')
      by (intros x Hx; apply Hit; right; exact Hx).
    simpl min_loop. rewrite Hkv. simpl py_lt.
    destruct (ltb v mv) eqn:Hlt.
    + destruct (IH (pre ++ minitem :: mid) item v [] Hkv Hnv) as
        (r & vr & pre' & post & Hr & Hkr & Hnr & Heq & Hp & Hq);
        try assumption.
      * apply all_keys_app; [|apply all_keys_cons with mv; try assumption].
        -- apply all_keys_weaken with (ltb mv); [|assumption].
           intros u Hu Hmu. apply ltb_trans with mv; assumption.
        -- apply all_keys_weaken with (leb mv); [|assumption].
           intros u Hu Hmu. apply ltb_leb_trans with mv; assumption.
      * intros x [].
      * exists r, vr, pre', post. repeat (split; [assumption|]). split; [|auto].
        rewrite <- Heq, <- app_assoc. reflexivity.
    + destruct (IH pre minitem mv (mid ++ [item]) Hk Hn) as
        (r & vr & pre' & post & Hr & Hkr & Hnr & Heq & Hp & Hq);
        try assumption.
      * apply all_keys_app; [assumption|].
        apply all_keys_cons with v; try assumption; [|intros x []].
        apply not_ltb_leb; assumption.
      * exists r, vr, pre', post. repeat (split; [assumption|]). split; [|auto].
        rewrite <- Heq, <- app_assoc. reflexivity.
Qed.

End MinLoop.

Lemma dict_get_of_key (d : dict float) (k : string) :
  In k (dict_keys d) -> exists v, dict_get d k = Some v.
Proof.
  induction d as [| [k0 v0] d IH]; intros Hin; [destruct Hin|].
  simpl. destruct (String.eqb k0 k) eqn:E; [eauto|].
  destruct Hin as [Heq | Hin]; [|auto].
  simpl in Heq. subst k0. rewrite String.eqb_refl in E. discriminate.
Qed.

Lemma dict_get_in_keys (d : dict float) (k : string) (v : float) :
  dict_get d k = Some v -> In k (dict_keys d).
Proof.
  induction d as [| [k0 v0] d IH]; intros Hget; [discriminate|].
  simpl in Hget. destruct (String.eqb k0 k) eqn:E.
  - apply String.eqb_eq in E. left. exact E.
  - right. auto.
Qed.

Lemma numeric_all_keys (d : dict float) :
  numeric d -> all_keys (dict_get d) (fun _ => true) (dict_keys d).
Proof.
  intros Hnum k Hin. destruct (dict_get_of_key d k Hin) as (v & Hv).
  exists v. eauto.
Qed.

(** On a report that is not empty and holds numbers only, [suggest_route]
    returns a key that splits the iteration order into keys of strictly
    greater value before it and keys of value at least as great after it. *)
Lemma suggest_route_split (d : dict float) :
  d <> [] -> numeric d ->
  exists k vk pre post,
    suggest_route d = Return k
    /\ dict_get d k = Some vk /\ is_nan vk = false
    /\ dict_keys d = pre ++ k :: post
    /\ all_keys (dict_get d) (ltb vk) pre
    /\ all_keys (dict_get d) (leb vk) post.
Proof.
  intros Hne Hnum. pose proof (numeric_all_keys d Hnum) as Hall.
  unfold suggest_route. destruct (dict_keys d) as [| k0 ks] eqn:Hkeys.
  - destruct d; [congruence | discriminate].
  - destruct (Hall k0 (or_introl eq_refl)) as (v0 & Hk0 & Hn0 & _).
    simpl py_min. rewrite Hk0.
    destruct (min_loop_first (dict_get d) ks [] k0 v0 [] Hk0 Hn0)
      as (r & vr & pre' & post & Hr & Hkr & Hnr & Heq & Hp & Hq).
    + intros x [].
    + intros x [].
    + intros x Hx. apply Hall. right. exact Hx.
    + exists r, vr, pre', post. simpl in Heq. auto 10.
Qed.

(** The key that splits the iteration order this way is a key of the
    report and its value is at most the value of every key. *)
Lemma split_minimal (d : dict float) (k : string) (vk : float)
      (pre post : list string) :
  dict_get d k = Some vk -> is_nan vk = false ->
  dict_keys d = pre ++ k :: post ->
  all_keys (dict_get d) (ltb vk) pre ->
  all_keys (dict_get d) (leb vk) post ->
  In k (dict_keys d) /\ minimal_key d k.
Proof.
  intros Hk Hn Hkeys Hpre Hpost. split.
  - rewrite Hkeys. apply in_or_app. right. left. reflexivity.
  - exists vk. split; [exact Hk|]. intros k' v' Hget.
    pose proof (dict_get_in_keys d k' v' Hget) as Hk'.
    rewrite Hkeys in Hk'. apply in_app_or in Hk'.
    destruct Hk' as [Hin | [<- | Hin]].
    + destruct (Hpre k' Hin) as (u & Hu & Hnu & Hlt).
      rewrite Hget in Hu. injection Hu as <-. apply ltb_leb; assumption.
    + rewrite Hget in Hk. injection Hk as <-. apply leb_refl. assumption.
    + destruct (Hpost k' Hin) as (u & Hu & Hnu & Hle).
      rewrite Hget in Hu. injection Hu as <-. exact Hle.
Qed.

Lemma key_index_app (pre rest : list string) (t : string) :
  ~ In t pre ->
  key_index (pre ++ rest) t = (List.length pre + key_index rest t)%nat.
Proof.
  induction pre as [| p pre IH]; intros Hnot; [reflexivity|].
  simpl. destruct (String.eqb p t) eqn:E.
  - apply String.eqb_eq in E. subst p. exfalso. apply Hnot. left. reflexivity.
  - rewrite IH; [reflexivity|]. intros Hin. apply Hnot. right. exact Hin.
Qed.

(** C1.  For every non-empty emissions report (its values being numbers),
    [suggest_route] returns a key that is present in the report, and the
    value at that key is less than or equal to the value at every key of
    the report. *)
Theorem suggest_route_minimal (d : dict float) :
  d <> [] -> numeric d ->
  exists k,
    suggest_route d = Return k
    /\ In k (dict_keys d)
    /\ minimal_key d k.
Proof.
  intros Hne Hnum.
  destruct (suggest_route_split d Hne Hnum)
    as (k & vk & pre & post & Hr & Hk & Hn & Hkeys & Hpre & Hpost).
  exists k. split; [exact Hr|].
  exact (split_minimal d k vk pre post Hk Hn Hkeys Hpre Hpost).
Qed.

(** C5.  When several keys of a report are tied for the minimum value,
    [suggest_route] returns the first of them in the iteration order of the
    dictionary: the key returned has the minimum value and no key with the
    minimum value comes before it. *)
Theorem suggest_route_first_of_ties (d : dict float) :
  d <> [] -> numeric d ->
  exists k,
    suggest_route d = Return k
    /\ minimal_key d k
    /\ forall t, minimal_key d t ->
         (key_index (dict_keys d) k <= key_index (dict_keys d) t)%nat.
Proof.
  intros Hne Hnum.
  destruct (suggest_route_split d Hne Hnum)
    as (k & vk & pre & post & Hr & Hk & Hn & Hkeys & Hpre & Hpost).
  destruct (split_minimal d k vk pre post Hk Hn Hkeys Hpre Hpost) as [_ Hmin].
  exists k. split; [exact Hr|]. split; [exact Hmin|].
  intros t (vt & Ht & Hleast).
  assert (Hnot : forall x vx, dict_get d x = Some vx -> leb vx vk = true -> ~ In x pre).
  { intros x vx Hx Hle Hin. destruct (Hpre x Hin) as (u & Hu & Hnu & Hlt).
    rewrite Hx in Hu. injection Hu as <-.
    apply (ltb_leb_absurd vk vx); assumption. }
  rewrite Hkeys.
  rewrite (key_index_app pre (k :: post) k)
    by (apply (Hnot k vk Hk); apply leb_refl; exact Hn).
  rewrite (key_index_app pre (k :: post) t) by (apply (Hnot t vt Ht); eauto).
  simpl key_index at 1. rewrite String.eqb_refl. lia.
Qed.

(** C6.  On an empty report [suggest_route] raises an error and returns no
    mode name. *)
Theorem suggest_route_empty :
  suggest_route [] = Raise (ValueError "min() arg is an empty sequence")
  /\ forall k, suggest_route [] <> Return k.
Proof.
  split; [reflexivity | intros k H; discriminate H].
Qed.

End SelectorFacts.

(** ** The sampler *)
Module SamplerFacts.
Import Float64 Float64Facts RandomFacts OrderFacts PyRandom Py App.
Local Open Scope string_scope.

(** [uniform_in_closed] at integer bounds given as numerals. *)
Ltac closed_range :=
  intros; eapply uniform_in_closed;
  [ vm_compute; reflexivity | vm_compute; reflexivity | vm_compute; reflexivity
  | unfold normal; lia | unfold normal; lia | unfold normal; lia | lia
  | vm_compute; reflexivity ].

Lemma uniform_100_200 (g : RandomState) :
  in_closed 100 200 (fst (uniform 100 200 g)) = true.
Proof. closed_range. Qed.

Lemma uniform_5_10 (g : RandomState) :
  in_closed 5 10 (fst (uniform 5 10 g)) = true.
Proof. closed_range. Qed.

Lemma uniform_20_50 (g : RandomState) :
  in_closed 20 50 (fst (uniform 20 50 g)) = true.
Proof. closed_range. Qed.


(** One run of the sampler: three draws in the order of the dictionary
    display, the log untouched. *)
Lemma get_emissions_data_run (route : Route) (w : World) :
  let u1 := uniform 100 200 (random_state w) in
  let u2 := uniform 5 10 (snd u1) in
  let u3 := uniform 20 50 (snd u2) in
  get_emissions_data route w
  = (Return [("car", fst u1); ("bike", fst u2); ("public_transport", fst u3)],
     {| random_state := snd u3; logged := logged w |}).
Proof.
  cbv zeta. unfold get_emissions_data, bind, with_random, ret.
  destruct (uniform 100 200 (random_state w)) as [car g1].
  cbn [random_state logged fst snd].
  destruct (uniform 5 10 g1) as [bike g2].
  cbn [random_state logged fst snd].
  destruct (uniform 20 50 g2) as [pt g3]. reflexivity.
Qed.

(** C2, as amended.  For every route, the sampler returns a mapping with
    exactly the three keys car, bike and public_transport, in this order,
    with the car value in [100, 200], the bike value in [5, 10] and the
    public_transport value in [20, 50], bounds included. *)
Theorem get_emissions_data_closed_ranges (route : Route) (w : World) :
  exists car bike public_transport w',
    get_emissions_data route w
    = (Return [("car", car); ("bike", bike); ("public_transport", public_transport)],
       w')
    /\ in_closed 100 200 car = true
    /\ in_closed 5 10 bike = true
    /\ in_closed 20 50 public_transport = true.
Proof.
  do 4 eexists. split; [apply get_emissions_data_run|].
  split; [apply uniform_100_200|]. split; [apply uniform_5_10 | apply uniform_20_50].
Qed.

(** C2, as stated, fails: when the generator delivers its largest integer,
    [uniform(100, 200)] is exactly [200.0], which is in [100, 200] but not
    in [100, 200). *)
Lemma get_emissions_data_reaches_200 :
  exists bike public_transport w',
    get_emissions_data (Some "A", Some "B") (world_of [2 ^ 53 - 1])
    = (Return [("car", of_int 200); ("bike", bike);
               ("public_transport", public_transport)], w')
    /\ in_half_open 100 200 (of_int 200) = false
    /\ in_closed 100 200 (of_int 200) = true.
Proof.
  do 3 eexists. split; [vm_compute; reflexivity|].
  split; vm_compute; reflexivity.
Qed.

Lemma numeric_three (k1 k2 k3 : string) (v1 v2 v3 : float) :
  is_nan v1 = false -> is_nan v2 = false -> is_nan v3 = false ->
  numeric [(k1, v1); (k2, v2); (k3, v3)].
Proof.
  intros H1 H2 H3 k v Hget. simpl in Hget.
  repeat match type of Hget with
         | (if ?c then _ else _) = _ => destruct c
         end;
    try discriminate; injection Hget as <-; assumption.
Qed.


(** C8.  The sampler ignores its route: from the same state of the process
    any two routes give the same report and the same next state. *)
Theorem get_emissions_data_ignores_route (route1 route2 : Route) (w : World) :
  get_emissions_data route1 w = get_emissions_data route2 w.
Proof. reflexivity. Qed.

End SamplerFacts.

(** ** The request handler *)
Module HandlerFacts.
Import Float64 PyRandom Py Flask App SelectorFacts SamplerFacts.
Local Open Scope string_scope.

Lemma blank_not_truthy (field : option string) :
  blank field <-> truthy field = false.
Proof.
  unfold blank, truthy. destruct field as [[| c s] |]; simpl; split; intros H;
    try reflexivity; try discriminate; auto.
  - destruct H as [H | H]; discriminate H.
Qed.

Lemma truthy_some (s : string) : s <> "" -> truthy (Some s) = true.
Proof. intros H. destruct s; [congruence | reflexivity]. Qed.

Lemma truthy_true (field : option string) :
  truthy field = true -> exists s, field = Some s /\ s <> "".
Proof.
  destruct field as [s |]; [|discriminate]. intros H. exists s. split; [reflexivity|].
  intros ->. discriminate H.
Qed.

(** On the report of the sampler the selector returns one of its keys. *)
Lemma suggest_route_sampled (car bike public_transport : float) :
  exists mode,
    suggest_route [("car", car); ("bike", bike); ("public_transport", public_transport)]
    = Return mode
    /\ In mode ["car"; "bike"; "public_transport"].
Proof.
  unfold suggest_route. simpl.
  destruct (ltb bike car); destruct (ltb public_transport _); simpl; eauto 6.
Qed.

(** What the [except] block does with an exception that reaches it. *)
Lemma try_except_catches (body : Py ViewReturn) (w w1 : World) (e : exn) :
  body w = (Raise e, w1) ->
  try_except body index_except w
  = (Return (Body (error_page (str e))),
     {| random_state := random_state w1;
        logged := logged w1 ++ ["An error occurred: " ++ str e] |}).
Proof.
  intros H. unfold try_except. rewrite H. reflexivity.
Qed.

(** The [try] block on a POST whose form is read: the two fields are looked
    up, then validated. *)
Lemma index_try_post (request : Request) (fields : list (string * string))
      (w : World) :
  method request = "POST" -> form request = Return fields ->
  index_try request w
  = (if negb (truthy (form_get fields "start")) || negb (truthy (form_get fields "end"))
     then raise (ValueError "Start and end locations must be provided.")
     else
       (emissions_data <- get_emissions_data
                            (form_get fields "start", form_get fields "end") ;;
        optimal_mode <- lift (suggest_route emissions_data) ;;
        ret (Body (render_template "index.html"
                     {| start := form_get fields "start";
                        end_ := form_get fields "end";
                        optimal_mode := Some optimal_mode;
                        emissions := Some emissions_data;
                        error_message := None |})))%py) w.
Proof.
  intros Hm Hf. unfold index_try, request_form_get. rewrite Hm, Hf, String.eqb_refl.
  reflexivity.
Qed.

Lemma index_try_unreadable (request : Request) (e : exn) (w : World) :
  method request = "POST" -> form request = Raise e ->
  index_try request w = (Raise e, w).
Proof.
  intros Hm Hf. unfold index_try, request_form_get. rewrite Hm, Hf, String.eqb_refl.
  reflexivity.
Qed.

Lemma index_try_invalid (request : Request) (fields : list (string * string))
      (w : World) :
  method request = "POST" -> form request = Return fields ->
  blank (form_get fields "start") \/ blank (form_get fields "end") ->
  index_try request w = (Raise (ValueError "Start and end locations must be provided."), w).
Proof.
  intros Hm Hf Hblank. rewrite (index_try_post request fields w Hm Hf).
  assert (Hc : negb (truthy (form_get fields "start"))
               || negb (truthy (form_get fields "end")) = true).
  { apply orb_true_iff.
    destruct Hblank as [H | H]; apply blank_not_truthy in H; rewrite H; auto. }
  rewrite Hc. reflexivity.
Qed.

Lemma index_try_valid (request : Request) (fields : list (string * string))
      (w : World) (s e : string) :
  method request = "POST" -> form request = Return fields ->
  form_get fields "start" = Some s ->
  form_get fields "end" = Some e ->
  s <> "" -> e <> "" ->
  exists mode d w',
    index_try request w
    = (Return (Body (render_template "index.html"
                       {| start := Some s; end_ := Some e;
                          optimal_mode := Some mode; emissions := Some d;
                          error_message := None |})), w')
    /\ get_emissions_data (Some s, Some e) w = (Return d, w')
    /\ suggest_route d = Return mode
    /\ In mode (dict_keys d).
Proof.
  intros Hm Hf Hs He Hsne Hene. rewrite (index_try_post request fields w Hm Hf).
  rewrite Hs, He, (truthy_some s Hsne), (truthy_some e Hene). cbn [negb orb].
  unfold bind at 1. rewrite get_emissions_data_run. cbv zeta.
  set (u1 := uniform 100 200 (random_state w)).
  set (u2 := uniform 5 10 (snd u1)).
  set (u3 := uniform 20 50 (snd u2)).
  destruct (suggest_route_sampled (fst u1) (fst u2) (fst u3)) as (mode & Hmode & Hin).
  unfold bind, lift, ret. rewrite Hmode.
  eexists. eexists. eexists. split; [reflexivity|]. split; [reflexivity|].
  split; [exact Hmode | exact Hin].
Qed.


(** The [try] block returns a page or raises; it has no other outcome. *)
Lemma index_try_cases (request : Request) (w : World) :
  (exists page w', index_try request w = (Return (Body page), w'))
  \/ (exists e w', index_try request w = (Raise e, w')).
Proof.
  destruct (String.eqb (method request) "POST") eqn:Hm.
  - apply String.eqb_eq in Hm.
    destruct (form request) as [fields | e0] eqn:Hf;
      [|right; rewrite (index_try_unreadable request e0 w Hm Hf); eauto].
    destruct (truthy (form_get fields "start")) eqn:Ts.
    + destruct (truthy (form_get fields "end")) eqn:Te.
      * apply truthy_true in Ts, Te.
        destruct Ts as (s & Hs & Hsne), Te as (e & He & Hene).
        destruct (index_try_valid request fields w s e Hm Hf Hs He Hsne Hene)
          as (mode & d & w' & Hrun & _).
        left. eauto.
      * right. apply blank_not_truthy in Te.
        rewrite (index_try_invalid request fields w Hm Hf (or_intror Te)). eauto.
    + right. apply blank_not_truthy in Ts.
      rewrite (index_try_invalid request fields w Hm Hf (or_introl Ts)). eauto.
  - left. unfold index_try. rewrite Hm. unfold ret. eauto.
Qed.

(** C3.  For every POST request whose start field or end field is empty or
    absent, the handler raises a validation error that carries exactly the
    message "Start and end locations must be provided.", and the page
    returned is the error page with that message. *)
Theorem index_validation_error (request : Request)
        (fields : list (string * string)) (w : World) :
  method request = "POST" -> form request = Return fields ->
  blank (form_get fields "start") \/ blank (form_get fields "end") ->
  index_try request w
  = (Raise (ValueError "Start and end locations must be provided."), w)
  /\ exists w',
       index request w
       = (Return (Body (error_page "Start and end locations must be provided.")), w')
       /\ error_message (context (error_page "Start and end locations must be provided."))
          = Some "Start and end locations must be provided.".
Proof.
  intros Hm Hf Hblank.
  pose proof (index_try_invalid request fields w Hm Hf Hblank) as Htry.
  split; [exact Htry|].
  eexists. unfold index. rewrite (try_except_catches _ w w _ Htry).
  split; reflexivity.
Qed.

(** C4.  Every exception raised in the [try] block of [index], the
    validation error or any other, is caught: the handler logs it and
    returns the error page carrying the message of the exception, without a
    status of its own, so that the response has status 200. *)
Theorem index_catches_exceptions (request : Request) (w w1 : World) (e : exn) :
  index_try request w = (Raise e, w1) ->
  exists w2,
    index request w = (Return (Body (error_page (str e))), w2)
    /\ logged w2 = (logged w1 ++ [("An error occurred: " ++ str e)%string])%list
    /\ error_message (context (error_page (str e))) = Some (str e)
    /\ forall debug,
         match_request request = View ->
         wsgi_app debug request w
         = (Return {| body := Some (error_page (str e)); status := 200 |}, w2).
Proof.
  intros Htry. eexists. unfold index.
  rewrite (try_except_catches _ w w1 e Htry).
  split; [reflexivity|]. split; [reflexivity|]. split; [reflexivity|].
  intros debug Hv. unfold wsgi_app, full_dispatch_request, index.
  rewrite Hv, (try_except_catches _ w w1 e Htry). reflexivity.
Qed.


(** With calls that return, the handler with parameters is [index]. *)
Lemma index_with_returning (request : Request) (w : World) :
  index_with (fun name ctx => ret (render_template name ctx)) logger_error request w
  = index request w.
Proof.
  unfold index_with, index, try_except, index_try_with, index_try,
    index_except_with, index_except, error_page, request_form_get, bind, lift, ret.
  destruct (String.eqb (method request) "POST"); [|reflexivity].
  destruct (form request) as [fields | e0]; [|reflexivity].
  destruct (negb (truthy (form_get fields "start"))
            || negb (truthy (form_get fields "end"))); [reflexivity|].
  destruct (get_emissions_data _ w) as [[d | e1] w1]; [|reflexivity].
  destruct (suggest_route d); reflexivity.
Qed.

(** Whatever the renderer does, the [try] block returns a page or raises. *)
Lemma index_try_with_cases (render : string -> Context -> Py Rendered)
      (request : Request) (w : World) :
  (exists page w', index_try_with render request w = (Return (Body page), w'))
  \/ (exists e w', index_try_with render request w = (Raise e, w')).
Proof.
  unfold index_try_with, request_form_get, bind, lift, ret, raise.
  destruct (String.eqb (method request) "POST").
  - destruct (form request) as [fields | e0]; [|eauto].
    destruct (negb (truthy (form_get fields "start"))
              || negb (truthy (form_get fields "end"))); [eauto|].
    destruct (get_emissions_data _ w) as [[d | e1] w1]; [|eauto].
    destruct (suggest_route d) as [mode | e2]; [|eauto].
    destruct (render "index.html" _ w1) as [[page | e3] w2]; eauto.
  - destruct (render "index.html" no_context w) as [[page | e3] w2]; eauto.
Qed.

(** C10, as amended.  For every request, GET or POST with any form, the
    handler returns a rendered page and raises nothing, provided the two
    calls of its [except] block return, [app.logger.error] and
    [render_template('error.html', ...)]: every exception raised in the
    [try] block, by the rendering of index.html as by anything else, is
    caught. *)
Theorem index_with_total (render : string -> Context -> Py Rendered)
        (log_error : string -> Py unit) (request : Request) (w : World) :
  (forall msg w0, exists w1, log_error msg w0 = (Return tt, w1)) ->
  (forall ctx w0, exists page w1, render "error.html" ctx w0 = (Return page, w1)) ->
  exists page w', index_with render log_error request w = (Return (Body page), w').
Proof.
  intros Hlog Hrender. unfold index_with, try_except.
  destruct (index_try_with_cases render request w) as [(page & w' & H) | (e & w' & H)];
    rewrite H.
  - exists page, w'. reflexivity.
  - unfold index_except_with, bind, ret.
    destruct (Hlog ("An error occurred: " ++ str e) w') as (w1 & ->).
    destruct (Hrender {| start := None; end_ := None; optimal_mode := None;
                         emissions := None; error_message := Some (str e) |} w1)
      as (page & w2 & ->).
    exists page, w2. reflexivity.
Qed.

(** C10, as stated, fails: the two calls of the [except] block are outside
    the [try], and an exception of theirs leaves the handler.  Without a
    templates folder a GET raises; with index.html alone an invalid POST
    raises, after its line is logged; with a logger whose filter raises an
    invalid POST raises what the filter raised. *)
Lemma index_with_raises :
  index_with (render_from []) logger_error get_index (world_of [])
  = (Raise (OtherError "TemplateNotFound" "error.html"),
     {| random_state := replay []; logged := ["An error occurred: index.html"] |})
  /\ index_with (render_from ["index.html"]) logger_error
       (post [("start", ""); ("end", "B")]) (world_of [])
     = (Raise (OtherError "TemplateNotFound" "error.html"),
        {| random_state := replay [];
           logged := ["An error occurred: Start and end locations must be provided."] |})
  /\ index_with (fun name ctx => ret (render_template name ctx)) logger_filter_raising
       (post [("start", ""); ("end", "B")]) (world_of [])
     = (Raise (OtherError "RuntimeError" "filter failed"), world_of []).
Proof. repeat split. Qed.


End HandlerFacts.

(** ** The program on concrete inputs *)
Module Examples.
Import Float64 PyRandom Py Flask App SelectorFacts SamplerFacts HandlerFacts.
Local Open Scope string_scope.

Example suggest_route_sample : suggest_route sample_report = Return "bike".
Proof. reflexivity. Qed.

Example suggest_route_tied : suggest_route tied_report = Return "bike".
Proof. reflexivity. Qed.

(** A value that is not a number is never replaced, since no comparison
    with it holds: the hypothesis [numeric] of the selector's theorems
    cannot be dropped. *)
Example suggest_route_nan :
  suggest_route nan_report = Return "car"
  /\ leb S754_nan (of_int 7) = false.
Proof. split; reflexivity. Qed.

Example uniform_least : fst (uniform 100 200 (replay [0])) = of_int 100.
Proof. vm_compute. reflexivity. Qed.

Example uniform_greatest :
  map (fun ab => eqb (fst (uniform (fst ab) (snd ab) (replay [2 ^ 53 - 1])))
                     (of_int (snd ab)))
      [(100, 200); (5, 10); (20, 50)]
  = [true; true; true].
Proof. vm_compute. reflexivity. Qed.

Example uniform_below_greatest :
  in_half_open 100 200 (fst (uniform 100 200 (replay [2 ^ 53 - 2]))) = true.
Proof. vm_compute. reflexivity. Qed.

Example index_get :
  index get_index (world_of [])
  = (Return (Body (render_template "index.html" no_context)), world_of []).
Proof. reflexivity. Qed.

Example wsgi_app_get :
  fst (wsgi_app true get_index (world_of []))
  = Return {| body := Some (render_template "index.html" no_context); status := 200 |}.
Proof. reflexivity. Qed.

Example wsgi_app_post_missing_start :
  fst (wsgi_app true (post [("start", ""); ("end", "B")]) (world_of []))
  = Return {| body := Some (error_page "Start and end locations must be provided.");
              status := 200 |}.
Proof. reflexivity. Qed.

Example wsgi_app_post_unreadable :
  wsgi_app true post_unreadable (world_of [])
  = (Return {| body := Some (error_page "413 Request Entity Too Large: The data value transmitted exceeds the capacity limit.");
               status := 200 |},
     {| random_state := replay [];
        logged := ["An error occurred: 413 Request Entity Too Large: The data value transmitted exceeds the capacity limit."] |}).
Proof. reflexivity. Qed.

(** The rule of static files does not accept POST: a POST under it is
    answered with status 405, for which the application has no page. *)
Example wsgi_app_post_static :
  wsgi_app true post_static (world_of [])
  = (Return {| body := None; status := 405 |}, world_of []).
Proof. reflexivity. Qed.

(** A view that raises the exception of a status is answered with that
    status, not with 500. *)
Example full_dispatch_request_too_large :
  full_dispatch_request false
    (fun _ => raise (HTTPException "RequestEntityTooLarge" 413 "413 Request Entity Too Large"))
    get_index (world_of [])
  = (Return {| body := None; status := 413 |}, world_of []).
Proof. reflexivity. Qed.

(** In debug mode an exception that is no HTTP exception leaves the
    application. *)
Example full_dispatch_request_propagates :
  full_dispatch_request true (fun _ => raise (TypeError "fault")) get_index (world_of [])
  = (Raise (TypeError "fault"), world_of []).
Proof. reflexivity. Qed.

Example wsgi_app_post :
  fst (wsgi_app true (post [("start", "A"); ("end", "B")]) (world_of [1; 2; 3]))
  = Return
      {| body :=
           Some (render_template "index.html"
                   {| start := Some "A"; end_ := Some "B";
                      optimal_mode := Some "bike";
                      emissions :=
                        Some [("car", fst (uniform 100 200 (replay [1])));
                              ("bike", fst (uniform 5 10 (replay [2])));
                              ("public_transport", fst (uniform 20 50 (replay [3])))];
                      error_message := None |});
         status := 200 |}.
Proof. vm_compute. reflexivity. Qed.

Lemma suggest_route_minimal_witness :
  sample_report <> []
  /\ numeric sample_report
  /\ exists k,
       suggest_route sample_report = Return k
       /\ In k (dict_keys sample_report)
       /\ minimal_key sample_report k.
Proof.
  assert (Hne : sample_report <> []) by discriminate.
  assert (Hnum : numeric sample_report).
  { apply numeric_three; reflexivity. }
  repeat (split; [assumption|]).
  exact (suggest_route_minimal sample_report Hne Hnum).
Defined.

Lemma suggest_route_first_of_ties_witness :
  tied_report <> []
  /\ numeric tied_report
  /\ exists k,
       suggest_route tied_report = Return k
       /\ minimal_key tied_report k
       /\ forall t, minimal_key tied_report t ->
            (key_index (dict_keys tied_report) k
             <= key_index (dict_keys tied_report) t)%nat.
Proof.
  assert (Hne : tied_report <> []) by discriminate.
  assert (Hnum : numeric tied_report).
  { apply numeric_three; reflexivity. }
  repeat (split; [assumption|]).
  exact (suggest_route_first_of_ties tied_report Hne Hnum).
Defined.

Lemma index_validation_error_witness :
  let fields := [("start", ""); ("end", "B")] in
  method (post fields) = "POST"
  /\ form (post fields) = Return fields
  /\ (blank (form_get fields "start") \/ blank (form_get fields "end"))
  /\ index_try (post fields) (world_of [])
     = (Raise (ValueError "Start and end locations must be provided."), world_of [])
  /\ exists w',
       index (post fields) (world_of [])
       = (Return (Body (error_page "Start and end locations must be provided.")), w')
       /\ error_message (context (error_page "Start and end locations must be provided."))
          = Some "Start and end locations must be provided.".
Proof.
  cbv zeta.
  assert (Hb : blank (form_get [("start", ""); ("end", "B")] "start")
               \/ blank (form_get [("start", ""); ("end", "B")] "end"))
    by (left; right; reflexivity).
  split; [reflexivity|]. split; [reflexivity|]. split; [exact Hb|].
  exact (index_validation_error (post [("start", ""); ("end", "B")])
           [("start", ""); ("end", "B")] (world_of []) eq_refl eq_refl Hb).
Defined.

Lemma index_catches_exceptions_witness :
  let e := HTTPException "RequestEntityTooLarge" 413
             "413 Request Entity Too Large: The data value transmitted exceeds the capacity limit." in
  index_try post_unreadable (world_of []) = (Raise e, world_of [])
  /\ exists w2,
       index post_unreadable (world_of []) = (Return (Body (error_page (str e))), w2)
       /\ logged w2
          = (logged (world_of []) ++ [("An error occurred: " ++ str e)%string])%list
       /\ error_message (context (error_page (str e))) = Some (str e)
       /\ forall debug,
            match_request post_unreadable = View ->
            wsgi_app debug post_unreadable (world_of [])
            = (Return {| body := Some (error_page (str e)); status := 200 |}, w2).
Proof.
  cbv zeta.
  assert (Htry : index_try post_unreadable (world_of [])
                 = (Raise (HTTPException "RequestEntityTooLarge" 413
                             "413 Request Entity Too Large: The data value transmitted exceeds the capacity limit."),
                    world_of []))
    by reflexivity.
  split; [exact Htry|].
  exact (index_catches_exceptions post_unreadable (world_of []) (world_of [])
           (HTTPException "RequestEntityTooLarge" 413
              "413 Request Entity Too Large: The data value transmitted exceeds the capacity limit.")
           Htry).
Defined.


Lemma index_with_total_witness :
  (forall msg w0, exists w1, logger_error msg w0 = (Return tt, w1))
  /\ (forall ctx w0, exists page w1,
        render_from ["error.html"] "error.html" ctx w0 = (Return page, w1))
  /\ index_try_with (render_from ["error.html"]) get_index (world_of [])
     = (Raise (OtherError "TemplateNotFound" "index.html"), world_of [])
  /\ exists page w',
       index_with (render_from ["error.html"]) logger_error get_index (world_of [])
       = (Return (Body page), w').
Proof.
  assert (Hlog : forall msg w0, exists w1, logger_error msg w0 = (Return tt, w1))
    by (intros msg w0; eexists; reflexivity).
  assert (Hrender : forall ctx w0, exists page w1,
            render_from ["error.html"] "error.html" ctx w0 = (Return page, w1))
    by (intros ctx w0; eexists; eexists; reflexivity).
  split; [exact Hlog|]. split; [exact Hrender|]. split; [reflexivity|].
  exact (index_with_total (render_from ["error.html"]) logger_error get_index
           (world_of []) Hlog Hrender).
Defined.


End Examples.

(** * More of the program *)

(** ** Comparisons with values that are not numbers *)
Module OrderMore.
Import Float64 OrderFacts.

Lemma ltb_is_number (x y : float) :
  ltb x y = true -> is_nan x = false /\ is_nan y = false.
Proof.
  unfold ltb, SFltb, SFcompare.
  destruct x as [? | ? | | ? ? ?], y as [? | ? | | ? ? ?];
    intros H; try discriminate; split; reflexivity.
Qed.

Lemma ltb_nan_l (x y : float) : is_nan x = true -> ltb x y = false.
Proof. destruct x; try discriminate. reflexivity. Qed.

Lemma ltb_nan_r (x y : float) : is_nan y = true -> ltb x y = false.
Proof. destruct y; try discriminate. destruct x; reflexivity. Qed.

Lemma ltb_irrefl (x : float) : ltb x x = false.
Proof.
  destruct (is_nan x) eqn:Hx; [apply ltb_nan_l; assumption|].
  destruct (ltb x x) eqn:H; [exfalso; by_keys | reflexivity].
Qed.

Lemma leb_ltb_trans (x y z : float) :
  is_nan x = false -> is_nan y = false -> is_nan z = false ->
  leb x y = true -> ltb y z = true -> ltb x z = true.
Proof. intros Hx Hy Hz Hxy Hyz. by_keys. Qed.

Lemma ltb_asym (x y : float) : ltb x y = true -> ltb y x = false.
Proof.
  intros H. destruct (ltb_is_number x y H) as [Hx Hy].
  destruct (ltb y x) eqn:H'; [exfalso; by_keys | reflexivity].
Qed.

(** A value that is not less than the kept one is not less than a value
    that replaces it. *)
Lemma never_less_step (x m v : float) :
  ltb x m = false -> ltb v m = true -> ltb x v = false.
Proof.
  intros Hxm Hvm. destruct (ltb_is_number v m Hvm) as [Hv Hm].
  destruct (is_nan x) eqn:Hx; [apply ltb_nan_l; assumption|].
  destruct (ltb x v) eqn:H; [exfalso; by_keys | reflexivity].
Qed.

End OrderMore.

(** ** The selector on any floats *)
Module SelectorMore.
Import Float64 OrderFacts OrderMore Py App SelectorFacts.

Section MinLoopAny.

Context {A : Type} (key : A -> option float).

(** The loop on items that all have a float for key, numbers or not: it
    returns an item, no key is less than the key of the item returned, and
    the key returned is a number exactly when the first key is. *)
Lemma min_loop_never_less (it : list A) :
  forall (seen : list A) (minitem : A) (mv : float),
    key minitem = Some mv ->
    (forall x, In x seen -> exists v, key x = Some v /\ ltb v mv = false) ->
    (forall x, In x it -> exists v, key x = Some v) ->
    exists r vr,
      min_loop key minitem (Some mv) it = Return r
      /\ key r = Some vr
      /\ In r (minitem :: it)
      /\ is_nan vr = is_nan mv
      /\ (is_nan mv = true -> r = minitem)
      /\ forall x, In x (seen ++ minitem :: it) ->
           exists v, key x = Some v /\ ltb v vr = false.
Proof.
  induction it as [| item it' IH]; intros seen minitem mv Hk Hseen Hit.
  - exists minitem, mv. simpl. repeat (split; [first [reflexivity | tauto]|]).
    intros x Hx. apply in_app_or in Hx. destruct Hx as [Hx | [<- | []]]; [auto|].
    exists mv. split; [assumption | apply ltb_irrefl].
  - destruct (Hit item (or_introl eq_refl)) as (v & Hkv).
    assert (Hit' : forall x, In x it' -> exists v, key x = Some v)
      by (intros x Hx; apply Hit; right; exact Hx).
    simpl min_loop. rewrite Hkv. simpl py_lt.
    destruct (ltb v mv) eqn:Hlt.
    + destruct (ltb_is_number v mv Hlt) as [Hnv Hnm].
      destruct (IH (seen ++ [minitem]) item v Hkv) as
        (r & vr & Hr & Hkr & Hin & Hnan & _ & Hall); [|assumption|].
      * intros x Hx. apply in_app_or in Hx. destruct Hx as [Hx | [<- | []]].
        -- destruct (Hseen x Hx) as (u & Hu & Hum). exists u.
           split; [assumption | apply never_less_step with mv; assumption].
        -- exists mv. split; [assumption | apply ltb_asym; assumption].
      * exists r, vr. split; [exact Hr|]. split; [exact Hkr|].
        split; [right; exact Hin|]. split; [congruence|].
        split; [intros Habs; congruence|].
        intros x Hx. apply Hall. rewrite <- app_assoc. exact Hx.
    + destruct (IH (item :: seen) minitem mv Hk) as
        (r & vr & Hr & Hkr & Hin & Hnan & Hfirst & Hall); [|assumption|].
      * intros x [<- | Hx]; [exists v; auto | auto].
      * exists r, vr. split; [exact Hr|]. split; [exact Hkr|].
        split; [destruct Hin as [<- | Hin]; [left; reflexivity | right; right; exact Hin]|].
        split; [exact Hnan|]. split; [exact Hfirst|].
        intros x Hx. apply Hall. apply in_app_or in Hx.
        destruct Hx as [Hx | [<- | [<- | Hx]]].
        -- right. apply in_or_app. left. exact Hx.
        -- right. apply in_or_app. right. left. reflexivity.
        -- left. reflexivity.
        -- right. apply in_or_app. right. right. exact Hx.
Qed.

End MinLoopAny.

(** [suggest_route] on a report that is not empty, in terms of its first
    entry. *)
Lemma suggest_route_any (k0 : string) (v0 : float) (rest : dict float) :
  let d := (k0, v0) :: rest in
  exists k vk,
    suggest_route d = Return k
    /\ dict_get d k = Some vk
    /\ In k (dict_keys d)
    /\ is_nan vk = is_nan v0
    /\ (is_nan v0 = true -> k = k0)
    /\ forall k' v', dict_get d k' = Some v' -> ltb v' vk = false.
Proof.
  cbv zeta. set (d := (k0, v0) :: rest).
  assert (Hk0 : dict_get d k0 = Some v0) by (simpl; rewrite String.eqb_refl; reflexivity).
  destruct (min_loop_never_less (dict_get d) (dict_keys rest) [] k0 v0 Hk0)
    as (r & vr & Hr & Hkr & Hin & Hnan & Hfirst & Hall).
  - intros x [].
  - intros x Hx. apply (dict_get_of_key d x). right. exact Hx.
  - exists r, vr.
    split.
    { change (suggest_route d)
        with (min_loop (dict_get d) k0 (dict_get d k0) (dict_keys rest)).
      rewrite Hk0. exact Hr. }
    split; [exact Hkr|]. split; [exact Hin|].
    split; [exact Hnan|]. split; [exact Hfirst|].
    intros k' v' Hget.
    destruct (Hall k' (dict_get_in_keys d k' v' Hget)) as (u & Hu & Hlt).
    congruence.
Qed.

(** X1.  On every report that is not empty, whatever its floats,
    [suggest_route] returns a key of the report and raises nothing, and no
    value of the report is strictly less than the value at that key. *)
Theorem suggest_route_never_less (d : dict float) :
  d <> [] ->
  exists k vk,
    suggest_route d = Return k
    /\ In k (dict_keys d)
    /\ dict_get d k = Some vk
    /\ forall k' v', dict_get d k' = Some v' -> ltb v' vk = false.
Proof.
  intros Hne. destruct d as [| [k0 v0] rest]; [congruence|].
  destruct (suggest_route_any k0 v0 rest) as (k & vk & Hr & Hk & Hin & _ & _ & Hall).
  exists k, vk. auto.
Qed.

(** X2.  The value at the key returned is a number exactly when the first
    value of the report is: a first value that is not a number makes
    [suggest_route] return the first key whatever follows, and one that is a
    number keeps every later value that is not a number from being chosen. *)
Theorem suggest_route_nan_only_first (k0 : string) (v0 : float) (rest : dict float) :
  exists k vk,
    suggest_route ((k0, v0) :: rest) = Return k
    /\ dict_get ((k0, v0) :: rest) k = Some vk
    /\ is_nan vk = is_nan v0
    /\ (is_nan v0 = true -> k = k0).
Proof.
  destruct (suggest_route_any k0 v0 rest) as (k & vk & Hr & Hk & _ & Hnan & Hfirst & _).
  exists k, vk. auto.
Qed.

End SelectorMore.

(** ** The order of the sampled values *)
Module SamplerMore.
Import Float64 Float64Facts RandomFacts OrderFacts OrderMore PyRandom Py App.
Import SamplerFacts.
Local Open Scope string_scope.

(** Values in two closed ranges that do not meet are strictly ordered. *)
Lemma closed_ranges_apart (lo1 hi1 lo2 hi2 : Z) (x y : float) :
  ltb (of_int hi1) (of_int lo2) = true ->
  in_closed lo1 hi1 x = true -> in_closed lo2 hi2 y = true ->
  ltb x y = true.
Proof.
  unfold in_closed. intros Hgap Hx Hy.
  apply andb_true_iff in Hx, Hy. destruct Hx as [_ Hx], Hy as [Hy _].
  destruct (leb_is_number _ _ Hx) as [Nx Nh], (leb_is_number _ _ Hy) as [Nl Ny].
  apply ltb_leb_trans with (of_int lo2); try assumption.
  apply leb_ltb_trans with (of_int hi1); assumption.
Qed.

(** One call of [uniform] moves the cursor of the source by one. *)
Lemma uniform_next (a b : Z) (g : RandomState) :
  snd (uniform a b g) = {| draws := draws g; cursor := S (cursor g) |}.
Proof. reflexivity. Qed.

Lemma uniform_values_ordered (g1 g2 g3 : RandomState) :
  ltb (fst (uniform 5 10 g2)) (fst (uniform 20 50 g3)) = true
  /\ ltb (fst (uniform 20 50 g3)) (fst (uniform 100 200 g1)) = true.
Proof.
  split.
  - apply (closed_ranges_apart 5 10 20 50);
      [vm_compute; reflexivity | apply uniform_5_10 | apply uniform_20_50].
  - apply (closed_ranges_apart 20 50 100 200);
      [vm_compute; reflexivity | apply uniform_20_50 | apply uniform_100_200].
Qed.

(** One run of the sampler with the state it leaves. *)
Lemma get_emissions_data_steps (route : Route) (w : World) :
  exists car bike public_transport,
    get_emissions_data route w
    = (Return [("car", car); ("bike", bike); ("public_transport", public_transport)],
       {| random_state :=
            {| draws := draws (random_state w);
               cursor := S (S (S (cursor (random_state w)))) |};
          logged := logged w |})
    /\ ltb bike public_transport = true
    /\ ltb public_transport car = true.
Proof.
  do 3 eexists. split.
  - rewrite get_emissions_data_run. cbv zeta. rewrite !uniform_next. reflexivity.
  - apply uniform_values_ordered.
Qed.

(** X3.  Every report of the sampler is strictly ordered: the bike value is
    less than the public_transport value, which is less than the car value;
    the ranges of lines 17 to 19 do not meet, end points included. *)
Theorem get_emissions_data_ordered (route : Route) (w : World) :
  exists car bike public_transport w',
    get_emissions_data route w
    = (Return [("car", car); ("bike", bike); ("public_transport", public_transport)],
       w')
    /\ ltb bike public_transport = true
    /\ ltb public_transport car = true.
Proof.
  destruct (get_emissions_data_steps route w) as (car & bike & pt & Hrun & Hord).
  exists car, bike, pt. eexists. split; [exact Hrun | exact Hord].
Qed.

(** X4.  One run of the sampler takes the next three integers of the random
    source in the order of the dictionary display: the value of car is
    computed from the first, the value of bike from the second, the value of
    public_transport from the third.  The source is left three integers
    further and nothing is written to the log. *)
Theorem get_emissions_data_three_draws (route : Route) (w : World) :
  let after (k : nat) :=
    {| draws := draws (random_state w);
       cursor := (k + cursor (random_state w))%nat |} in
  get_emissions_data route w
  = (Return [("car", fst (uniform 100 200 (after 0%nat)));
             ("bike", fst (uniform 5 10 (after 1%nat)));
             ("public_transport", fst (uniform 20 50 (after 2%nat)))],
     {| random_state := after 3%nat; logged := logged w |}).
Proof.
  cbv zeta. rewrite get_emissions_data_run. cbv zeta. rewrite !uniform_next.
  destruct w as [[d c] l]. reflexivity.
Qed.

End SamplerMore.

(** ** The handler: what it selects, what it changes, what it answers *)
Module HandlerMore.
Import Float64 OrderFacts OrderMore PyRandom Py Flask App.
Import SelectorFacts SamplerFacts SamplerMore HandlerFacts.
Local Open Scope string_scope.

(** On three values ordered as the sampler orders them the selector returns
    bike. *)
Lemma suggest_route_bike (car bike public_transport : float) :
  ltb bike public_transport = true -> ltb public_transport car = true ->
  suggest_route [("car", car); ("bike", bike); ("public_transport", public_transport)]
  = Return "bike".
Proof.
  intros Hbp Hpc.
  destruct (ltb_is_number _ _ Hbp) as [Nb Np], (ltb_is_number _ _ Hpc) as [_ Nc].
  assert (Hbc : ltb bike car = true) by (apply ltb_trans with public_transport; assumption).
  pose proof (ltb_asym _ _ Hbp) as Hpb.
  unfold suggest_route. simpl. rewrite Hbc, Hpb. reflexivity.
Qed.

(** A POST with both fields filled: the page, the mode and the state of the
    process afterwards. *)
Lemma index_valid_run (request : Request) (fields : list (string * string))
      (w : World) (s e : string) :
  method request = "POST" -> form request = Return fields ->
  form_get fields "start" = Some s ->
  form_get fields "end" = Some e ->
  s <> "" -> e <> "" ->
  exists d,
    index request w
    = (Return (Body (render_template "index.html"
                       {| start := Some s; end_ := Some e;
                          optimal_mode := Some "bike"; emissions := Some d;
                          error_message := None |})),
       {| random_state :=
            {| draws := draws (random_state w);
               cursor := S (S (S (cursor (random_state w)))) |};
          logged := logged w |})
    /\ List.length d = 3%nat.
Proof.
  intros Hm Hf Hs He Hsne Hene.
  destruct (index_try_valid request fields w s e Hm Hf Hs He Hsne Hene)
    as (mode & d & w' & Hrun & Hdata & Hmode & _).
  destruct (get_emissions_data_steps (Some s, Some e) w)
    as (car & bike & pt & Hdata' & Hbp & Hpc).
  rewrite Hdata in Hdata'. injection Hdata' as -> ->.
  rewrite (suggest_route_bike car bike pt Hbp Hpc) in Hmode. injection Hmode as <-.
  exists [("car", car); ("bike", bike); ("public_transport", pt)].
  split; [|reflexivity].
  unfold index, try_except. rewrite Hrun. reflexivity.
Qed.

(** X5.  Whatever the random source delivers, the mode suggested for a POST
    with both fields filled is bike: the least value of the report is always
    the bike value. *)
Theorem index_always_bike (request : Request) (fields : list (string * string))
        (w : World) (s e : string) :
  method request = "POST" -> form request = Return fields ->
  form_get fields "start" = Some s ->
  form_get fields "end" = Some e ->
  s <> "" -> e <> "" ->
  exists page w',
    index request w = (Return (Body page), w')
    /\ template page = "index.html"
    /\ optimal_mode (context page) = Some "bike".
Proof.
  intros Hm Hf Hs He Hsne Hene.
  destruct (index_valid_run request fields w s e Hm Hf Hs He Hsne Hene) as (d & Hrun & _).
  eexists. eexists. split; [exact Hrun|]. split; reflexivity.
Qed.

(** The three kinds of run of [index], with what each changes. *)
Lemma index_kinds (request : Request) (w : World) :
  (method request <> "POST"
   /\ index request w = (Return (Body (render_template "index.html" no_context)), w))
  \/ (method request = "POST"
      /\ exists e,
           index_try request w = (Raise e, w)
           /\ index request w
              = (Return (Body (error_page (str e))),
                 {| random_state := random_state w;
                    logged := (logged w ++ [("An error occurred: " ++ str e)%string])%list |}))
  \/ (method request = "POST"
      /\ exists fields s e d,
           form request = Return fields
           /\ form_get fields "start" = Some s /\ s <> ""
           /\ form_get fields "end" = Some e /\ e <> ""
           /\ List.length d = 3%nat
           /\ index request w
              = (Return (Body (render_template "index.html"
                                 {| start := Some s; end_ := Some e;
                                    optimal_mode := Some "bike";
                                    emissions := Some d;
                                    error_message := None |})),
                 {| random_state :=
                      {| draws := draws (random_state w);
                         cursor := S (S (S (cursor (random_state w)))) |};
                    logged := logged w |})).
Proof.
  destruct (String.eqb (method request) "POST") eqn:Hm.
  - apply String.eqb_eq in Hm. right.
    assert (Hfail : forall e, index_try request w = (Raise e, w) ->
              exists e,
                index_try request w = (Raise e, w)
                /\ index request w
                   = (Return (Body (error_page (str e))),
                      {| random_state := random_state w;
                         logged :=
                           (logged w ++ [("An error occurred: " ++ str e)%string])%list |})).
    { intros e He. exists e. split; [exact He|].
      unfold index. rewrite (try_except_catches _ w w e He). reflexivity. }
    destruct (form request) as [fields | e0] eqn:Hf;
      [|left; split; [exact Hm|];
        exact (Hfail _ (index_try_unreadable request e0 w Hm Hf))].
    destruct (truthy (form_get fields "start")) eqn:Ts;
      [|left; split; [exact Hm|]; apply blank_not_truthy in Ts;
        exact (Hfail _ (index_try_invalid request fields w Hm Hf (or_introl Ts)))].
    destruct (truthy (form_get fields "end")) eqn:Te;
      [|left; split; [exact Hm|]; apply blank_not_truthy in Te;
        exact (Hfail _ (index_try_invalid request fields w Hm Hf (or_intror Te)))].
    right. split; [exact Hm|].
    apply truthy_true in Ts, Te.
    destruct Ts as (s & Hs & Hsne), Te as (e & He & Hene).
    destruct (index_valid_run request fields w s e Hm Hf Hs He Hsne Hene)
      as (d & Hrun & Hlen).
    exists fields, s, e, d. auto 10.
  - left. split; [apply String.eqb_neq; exact Hm|].
    unfold index, try_except, index_try. rewrite Hm. reflexivity.
Qed.

(** X6.  The runs of [index], each with its condition and with what it
    changes.  A request that is not a POST gets the bare form and changes
    nothing.  A POST whose form cannot be read gets the error page with the
    text of the exception, and a POST whose start or end is empty or absent
    gets the error page with the validation message: one line is logged and
    the random source is not used.  A POST with both fields filled gets the
    result page with these fields, the mode bike and a report of three
    values: three integers are taken from the random source and nothing is
    logged.  Every request is in one of these four cases. *)
Theorem index_outcomes (request : Request) (w : World) :
  (method request <> "POST" ->
   index request w = (Return (Body (render_template "index.html" no_context)), w))
  /\ (forall e,
         method request = "POST" -> form request = Raise e ->
         index request w
         = (Return (Body (error_page (str e))),
            {| random_state := random_state w;
               logged := (logged w ++ [("An error occurred: " ++ str e)%string])%list |}))
  /\ (forall fields,
         method request = "POST" -> form request = Return fields ->
         blank (form_get fields "start") \/ blank (form_get fields "end") ->
         index request w
         = (Return (Body (error_page "Start and end locations must be provided.")),
            {| random_state := random_state w;
               logged :=
                 (logged w
                  ++ ["An error occurred: Start and end locations must be provided."])%list |}))
  /\ (forall fields s e,
         method request = "POST" -> form request = Return fields ->
         form_get fields "start" = Some s -> form_get fields "end" = Some e ->
         s <> "" -> e <> "" ->
         exists d,
           index request w
           = (Return (Body (render_template "index.html"
                              {| start := Some s; end_ := Some e;
                                 optimal_mode := Some "bike";
                                 emissions := Some d;
                                 error_message := None |})),
              {| random_state :=
                   {| draws := draws (random_state w);
                      cursor := S (S (S (cursor (random_state w)))) |};
                 logged := logged w |})
           /\ List.length d = 3%nat)
  /\ (method request <> "POST"
      \/ (method request = "POST" /\ exists e, form request = Raise e)
      \/ (method request = "POST"
          /\ exists fields,
               form request = Return fields
               /\ (blank (form_get fields "start") \/ blank (form_get fields "end")))
      \/ (method request = "POST"
          /\ exists fields s e,
               form request = Return fields
               /\ form_get fields "start" = Some s /\ form_get fields "end" = Some e
               /\ s <> "" /\ e <> "")).
Proof.
  split; [|split; [|split; [|split]]].
  - intros Hm. apply String.eqb_neq in Hm.
    unfold index, try_except, index_try. rewrite Hm. reflexivity.
  - intros e Hm Hf. unfold index.
    rewrite (try_except_catches _ w w e (index_try_unreadable request e w Hm Hf)).
    reflexivity.
  - intros fields Hm Hf Hblank. unfold index.
    rewrite (try_except_catches _ w w _ (index_try_invalid request fields w Hm Hf Hblank)).
    reflexivity.
  - intros fields s e Hm Hf Hs He Hsne Hene.
    exact (index_valid_run request fields w s e Hm Hf Hs He Hsne Hene).
  - destruct (String.eqb (method request) "POST") eqn:Hm;
      [|left; apply String.eqb_neq; exact Hm].
    apply String.eqb_eq in Hm. right.
    destruct (form request) as [fields | e0] eqn:Hf; [|left; eauto].
    right.
    destruct (truthy (form_get fields "start")) eqn:Ts;
      [|left; split; [exact Hm|]; exists fields; split; [reflexivity|];
        left; apply blank_not_truthy; exact Ts].
    destruct (truthy (form_get fields "end")) eqn:Te;
      [|left; split; [exact Hm|]; exists fields; split; [reflexivity|];
        right; apply blank_not_truthy; exact Te].
    right. split; [exact Hm|].
    apply truthy_true in Ts, Te.
    destruct Ts as (s & Hs & Hsne), Te as (e & He & Hene).
    exists fields, s, e. auto.
Qed.

End HandlerMore.

(** ** The templates: escaping and the tags of a page *)
Module TemplateFacts.
Import Py Flask App Templates.
Local Open Scope string_scope.

Lemma count_app (c : ascii) (s t : string) :
  count c (s ++ t) = (count c s + count c t)%nat.
Proof. induction s as [| a s IH]; simpl; [reflexivity | rewrite IH; lia]. Qed.

Lemma markup_cases (c : ascii) :
  markup c = true -> c = "<"%char \/ c = ">"%char \/ c = "'"%char \/ c = "034"%char.
Proof.
  unfold markup. intros H.
  repeat (apply orb_true_iff in H; destruct H as [H | H]);
    apply Ascii.eqb_eq in H; auto.
Qed.

Lemma count_escape_char (c a : ascii) :
  markup c = true -> count c (escape_char a) = O.
Proof.
  intros Hc. unfold escape_char.
  repeat match goal with
         | |- context [Ascii.eqb a ?x] => destruct (Ascii.eqb_spec a x)
         end;
    destruct (markup_cases c Hc) as [-> | [-> | [-> | ->]]];
    try reflexivity;
    simpl; match goal with
           | |- context [Ascii.eqb a ?x] =>
               destruct (Ascii.eqb_spec a x); [contradiction | reflexivity]
           end.
Qed.

Lemma count_escape (c : ascii) (s : string) :
  markup c = true -> count c (escape s) = O.
Proof.
  intros Hc. induction s as [| a s IH]; [reflexivity|].
  simpl escape. rewrite count_app, IH, count_escape_char by assumption. reflexivity.
Qed.

Lemma count_show (c : ascii) (x : option string) :
  markup c = true -> count c (show x) = O.
Proof. intros Hc. destruct x; [apply count_escape; assumption | reflexivity]. Qed.

Lemma count_concat (c : ascii) (l : list string) :
  count c (String.concat "" l) = list_sum (map (count c) l).
Proof.
  induction l as [| x l IH]; [reflexivity|].
  destruct l as [| y l].
  - simpl. lia.
  - change (String.concat "" (x :: y :: l)) with (x ++ "" ++ String.concat "" (y :: l)).
    rewrite !count_app, IH. simpl. lia.
Qed.

(** Counting through the text of a template. *)
Ltac count_pieces Hc :=
  cbn [unlines String.concat];
  repeat rewrite count_app;
  repeat rewrite (count_show _ _ Hc);
  repeat rewrite (count_escape _ _ Hc).

(** X8.  The text a template shows for a value holds none of the characters
    [<], [>], ['] and the double quote: [{{ x }}] cannot open or close a
    tag or an attribute, whatever the value. *)
Theorem escape_no_markup (s : string) (c : ascii) :
  markup c = true -> count c (escape s) = O.
Proof. apply count_escape. Qed.

(** X9.  A text without [&], [<], [>], ['] and the double quote is shown
    as it is. *)
Theorem escape_plain (s : string) : plain s = true -> escape s = s.
Proof.
  induction s as [| a s IH]; [reflexivity|].
  simpl plain. intros H.
  apply andb_true_iff in H. destruct H as [H Hs].
  apply andb_true_iff in H. destruct H as [Ha Hm].
  simpl escape. rewrite (IH Hs).
  unfold markup in Hm. apply negb_true_iff in Ha, Hm.
  repeat (apply orb_false_iff in Hm; destruct Hm as [Hm ?]).
  unfold escape_char.
  repeat match goal with
         | H : Ascii.eqb a _ = false |- _ => rewrite H; clear H
         end.
  reflexivity.
Qed.

Lemma escape_char_cases (a : ascii) :
  (escape_char a = String a "" /\ a <> "&"%char)
  \/ (a = "&"%char /\ escape_char a = "&amp;")
  \/ (a = "<"%char /\ escape_char a = "&lt;")
  \/ (a = ">"%char /\ escape_char a = "&gt;")
  \/ (a = "'"%char /\ escape_char a = "&#39;")
  \/ (a = "034"%char /\ escape_char a = "&#34;").
Proof.
  unfold escape_char.
  repeat match goal with
         | |- context [Ascii.eqb a ?x] => destruct (Ascii.eqb_spec a x)
         end; subst; auto 10.
Qed.

(** X10.  Escaping loses nothing: two texts that are shown alike are the
    same text. *)
Theorem escape_injective (s t : string) : escape s = escape t -> s = t.
Proof.
  revert t. induction s as [| a s IH]; intros [| b t] H.
  - reflexivity.
  - exfalso. simpl in H.
    destruct (escape_char_cases b) as [[E _] | [[_ E] | [[_ E] | [[_ E] | [[_ E] | [_ E]]]]]];
      rewrite E in H; discriminate H.
  - exfalso. simpl in H.
    destruct (escape_char_cases a) as [[E _] | [[_ E] | [[_ E] | [[_ E] | [[_ E] | [_ E]]]]]];
      rewrite E in H; discriminate H.
  - simpl in H.
    destruct (escape_char_cases a)
      as [[Ea Na] | [[-> Ea] | [[-> Ea] | [[-> Ea] | [[-> Ea] | [-> Ea]]]]]];
      destruct (escape_char_cases b)
        as [[Eb Nb] | [[-> Eb] | [[-> Eb] | [[-> Eb] | [[-> Eb] | [-> Eb]]]]]];
      rewrite Ea in H; try rewrite Eb in H; simpl in H;
      try (injection H as H1 H2; try congruence; f_equal; [congruence | apply IH; assumption]);
      try (injection H; intros; f_equal; apply IH; assumption);
      try discriminate H;
      try (exfalso; injection H; intros; congruence).
Qed.

Lemma Return_inj {A : Type} (x y : A) : Return x = Return y -> x = y.
Proof. intros H. injection H as H. exact H. Qed.

Lemma count_result_item (c : ascii) (rt1 rt2 : Float64.float -> string)
      (i1 i2 : string * Float64.float) :
  markup c = true ->
  count c (result_item rt1 i1) = count c (result_item rt2 i2).
Proof. intros Hc. unfold result_item. count_pieces Hc. reflexivity. Qed.

Lemma count_result_items (c : ascii) (rt1 rt2 : Float64.float -> string)
      (r1 r2 : dict Float64.float) :
  markup c = true -> List.length r1 = List.length r2 ->
  list_sum (map (count c) (map (result_item rt1) r1))
  = list_sum (map (count c) (map (result_item rt2) r2)).
Proof.
  intros Hc. revert r2. induction r1 as [| i1 r1 IH]; intros [| i2 r2] Hlen;
    try discriminate; [reflexivity|].
  change (count c (result_item rt1 i1)
          + list_sum (map (count c) (map (result_item rt1) r1))
          = count c (result_item rt2 i2)
            + list_sum (map (count c) (map (result_item rt2) r2)))%nat.
  rewrite (count_result_item c rt1 rt2 i1 i2 Hc), (IH r2); [reflexivity|].
  simpl in Hlen. congruence.
Qed.

(** X11.  The tags of the error page do not depend on the message: any two
    error pages hold the same number of each of [<], [>], ['] and the
    double quote. *)
Theorem error_html_markup_fixed (ctx1 ctx2 : Context) (c : ascii) :
  markup c = true ->
  count c (render_error_html ctx1) = count c (render_error_html ctx2).
Proof. intros Hc. unfold render_error_html. count_pieces Hc. reflexivity. Qed.

Lemma index_markup_by_shape (rt1 rt2 : Float64.float -> string)
        (ctx1 ctx2 : Context) (h1 h2 : string) (c : ascii) :
  shape ctx1 = shape ctx2 -> markup c = true ->
  render_index_html rt1 ctx1 = Return h1 ->
  render_index_html rt2 ctx2 = Return h2 ->
  count c h1 = count c h2.
Proof.
  unfold shape, render_index_html. intros Hs Hc H1 H2.
  injection Hs as Ht He.
  rewrite <- Ht in H2. destruct (truthy (optimal_mode ctx1)); [|congruence].
  destruct (emissions ctx1) as [r1 |]; [|discriminate].
  destruct (emissions ctx2) as [r2 |]; [|discriminate].
  apply Return_inj in H1, H2. subst h1 h2. simpl in He.
  rewrite !count_app, !count_concat.
  rewrite (count_result_items c rt1 rt2 r1 r2 Hc) by congruence.
  unfold result_open. count_pieces Hc. reflexivity.
Qed.

(** X12.  The tags of an index page depend only on whether it has a result
    section and on the number of values in the report: two pages alike in
    this hold the same number of each of [<], [>], ['] and the double quote,
    whatever the start, the end, the mode names and the values shown. *)
Theorem index_html_markup_shape (rt1 rt2 : Float64.float -> string)
        (ctx1 ctx2 : Context) (h1 h2 : string) (c : ascii) :
  shape ctx1 = shape ctx2 -> markup c = true ->
  render_index_html rt1 ctx1 = Return h1 ->
  render_index_html rt2 ctx2 = Return h2 ->
  count c h1 = count c h2.
Proof. apply index_markup_by_shape. Qed.

End TemplateFacts.

(** ** The pages of the handler as HTML *)
Module PageFacts.
Import Py Flask App Templates HandlerMore TemplateFacts.
Local Open Scope string_scope.

(** X13.  Every page [index] returns can be rendered: the template exists
    and gets the variables it uses, so that rendering raises nothing. *)
Theorem index_pages_render (rounded_text : Float64.float -> string)
        (request : Request) (w w' : World) (page : Rendered) :
  index request w = (Return (Body page), w') ->
  exists h, html rounded_text page = Return h.
Proof.
  intros Hrun.
  destruct (index_kinds request w)
    as [[_ H] | [[_ (e & _ & H)] | [_ (fields & s & e & d & _ & _ & _ & _ & _ & _ & H)]]];
    rewrite Hrun in H; apply pair_equal_spec in H; destruct H as [H _];
    apply Return_inj in H; injection H as ->; eexists; reflexivity.
Qed.

(** X14.  What the user types cannot change the tags of the result page:
    the pages of any two POSTs with both fields filled hold the same number
    of each of [<], [>], ['] and the double quote, whatever the fields and
    whatever the random source delivers. *)
Theorem result_pages_same_markup (rounded_text : Float64.float -> string)
        (request1 request2 : Request) (fields1 fields2 : list (string * string))
        (w1 w2 : World) (s1 e1 s2 e2 : string) (c : ascii) :
  method request1 = "POST" -> form request1 = Return fields1 ->
  form_get fields1 "start" = Some s1 -> form_get fields1 "end" = Some e1 ->
  s1 <> "" -> e1 <> "" ->
  method request2 = "POST" -> form request2 = Return fields2 ->
  form_get fields2 "start" = Some s2 -> form_get fields2 "end" = Some e2 ->
  s2 <> "" -> e2 <> "" ->
  markup c = true ->
  exists page1 page2 w1' w2' h1 h2,
    index request1 w1 = (Return (Body page1), w1')
    /\ index request2 w2 = (Return (Body page2), w2')
    /\ html rounded_text page1 = Return h1
    /\ html rounded_text page2 = Return h2
    /\ count c h1 = count c h2.
Proof.
  intros Hm1 Hf1 Hs1 He1 Hsn1 Hen1 Hm2 Hf2 Hs2 He2 Hsn2 Hen2 Hc.
  destruct (index_valid_run request1 fields1 w1 s1 e1 Hm1 Hf1 Hs1 He1 Hsn1 Hen1)
    as (d1 & Hrun1 & Hlen1).
  destruct (index_valid_run request2 fields2 w2 s2 e2 Hm2 Hf2 Hs2 He2 Hsn2 Hen2)
    as (d2 & Hrun2 & Hlen2).
  set (ctx1 := {| start := Some s1; end_ := Some e1; optimal_mode := Some "bike";
                  emissions := Some d1; error_message := None |}) in *.
  set (ctx2 := {| start := Some s2; end_ := Some e2; optimal_mode := Some "bike";
                  emissions := Some d2; error_message := None |}) in *.
  assert (Hshape : shape ctx1 = shape ctx2).
  { unfold shape, ctx1, ctx2. cbn [optimal_mode emissions option_map].
    rewrite Hlen1, Hlen2. reflexivity. }
  assert (Hr1 : exists h1, render_index_html rounded_text ctx1 = Return h1)
    by (eexists; reflexivity).
  assert (Hr2 : exists h2, render_index_html rounded_text ctx2 = Return h2)
    by (eexists; reflexivity).
  destruct Hr1 as (h1 & Hr1), Hr2 as (h2 & Hr2).
  exists (render_template "index.html" ctx1), (render_template "index.html" ctx2).
  do 2 eexists. exists h1, h2.
  split; [exact Hrun1|]. split; [exact Hrun2|].
  split; [exact Hr1|]. split; [exact Hr2|].
  exact (index_markup_by_shape rounded_text rounded_text ctx1 ctx2 h1 h2 c
           Hshape Hc Hr1 Hr2).
Qed.

End PageFacts.

(** ** More of the program on concrete inputs *)
Module MoreExamples.
Import Float64 PyRandom Py Flask App Templates.
Import SelectorFacts SelectorMore SamplerFacts SamplerMore HandlerFacts HandlerMore.
Import TemplateFacts PageFacts.
Local Open Scope string_scope.

Example escape_tags : escape "<b>Tom & 'Al'</b>" = "&lt;b&gt;Tom &amp; &#39;Al&#39;&lt;/b&gt;".
Proof. reflexivity. Qed.

Example error_html_counts :
  map (fun c => count c (render_error_html (context (error_page "<script>"))))
      ["<"; ">"]%char
  = [15; 15]%nat.
Proof. vm_compute. reflexivity. Qed.

Lemma suggest_route_never_less_witness :
  nan_report <> []
  /\ exists k vk,
       suggest_route nan_report = Return k
       /\ In k (dict_keys nan_report)
       /\ dict_get nan_report k = Some vk
       /\ forall k' v', dict_get nan_report k' = Some v' -> ltb v' vk = false.
Proof.
  assert (Hne : nan_report <> []) by discriminate.
  split; [exact Hne|].
  exact (suggest_route_never_less nan_report Hne).
Defined.

Lemma get_emissions_data_three_draws_witness :
  let w := world_of [1; 2; 3] in
  let after (k : nat) :=
    {| draws := draws (random_state w);
       cursor := (k + cursor (random_state w))%nat |} in
  get_emissions_data (Some "A", Some "B") w
  = (Return [("car", fst (uniform 100 200 (after 0%nat)));
             ("bike", fst (uniform 5 10 (after 1%nat)));
             ("public_transport", fst (uniform 20 50 (after 2%nat)))],
     {| random_state := after 3%nat; logged := logged w |}).
Proof.
  exact (get_emissions_data_three_draws (Some "A", Some "B") (world_of [1; 2; 3])).
Defined.

Lemma index_outcomes_witness :
  let request := post [("start", "Lyon"); ("end", "")] in
  method request = "POST"
  /\ form request = Return [("start", "Lyon"); ("end", "")]
  /\ (blank (form_get [("start", "Lyon"); ("end", "")] "start")
      \/ blank (form_get [("start", "Lyon"); ("end", "")] "end"))
  /\ index request (world_of [])
     = (Return (Body (error_page "Start and end locations must be provided.")),
        {| random_state := random_state (world_of []);
           logged :=
             (logged (world_of [])
              ++ ["An error occurred: Start and end locations must be provided."])%list |}).
Proof.
  cbv zeta.
  assert (Hb : blank (form_get [("start", "Lyon"); ("end", "")] "start")
               \/ blank (form_get [("start", "Lyon"); ("end", "")] "end"))
    by (right; right; reflexivity).
  split; [reflexivity|]. split; [reflexivity|]. split; [exact Hb|].
  exact (proj1 (proj2 (proj2 (index_outcomes (post [("start", "Lyon"); ("end", "")])
                                 (world_of []))))
           [("start", "Lyon"); ("end", "")] eq_refl eq_refl Hb).
Defined.

Lemma index_always_bike_witness :
  let fields := [("start", "Lyon"); ("end", "Paris")] in
  method (post fields) = "POST"
  /\ form (post fields) = Return fields
  /\ form_get fields "start" = Some "Lyon"
  /\ form_get fields "end" = Some "Paris"
  /\ "Lyon" <> "" /\ "Paris" <> ""
  /\ exists page w',
       index (post fields) (world_of [2 ^ 53 - 1; 0; 0]) = (Return (Body page), w')
       /\ template page = "index.html"
       /\ optimal_mode (context page) = Some "bike".
Proof.
  cbv zeta.
  assert (H1 : "Lyon" <> "") by discriminate.
  assert (H2 : "Paris" <> "") by discriminate.
  repeat (split; [first [reflexivity | assumption]|]).
  exact (index_always_bike (post [("start", "Lyon"); ("end", "Paris")])
           [("start", "Lyon"); ("end", "Paris")]
           (world_of [2 ^ 53 - 1; 0; 0]) "Lyon" "Paris"
           eq_refl eq_refl eq_refl eq_refl H1 H2).
Defined.


Lemma escape_no_markup_witness :
  markup "<" = true /\ count "<" (escape "<script>alert(1)</script>") = O.
Proof.
  assert (Hc : markup "<" = true) by reflexivity.
  split; [exact Hc|].
  exact (escape_no_markup "<script>alert(1)</script>" "<" Hc).
Defined.

Lemma escape_plain_witness :
  plain "Start and end locations must be provided." = true
  /\ escape "Start and end locations must be provided."
     = "Start and end locations must be provided.".
Proof.
  assert (Hp : plain "Start and end locations must be provided." = true) by reflexivity.
  split; [exact Hp|].
  exact (escape_plain "Start and end locations must be provided." Hp).
Defined.

Lemma escape_injective_witness :
  escape "a<b" = escape "a<b" /\ "a<b" = "a<b".
Proof.
  assert (H : escape "a<b" = escape "a<b") by reflexivity.
  split; [exact H|].
  exact (escape_injective "a<b" "a<b" H).
Defined.

Lemma error_html_markup_fixed_witness :
  markup ">" = true
  /\ count ">" (render_error_html (context (error_page "<script>alert(1)</script>")))
     = count ">" (render_error_html (context (error_page "Page not found."))).
Proof.
  assert (Hc : markup ">" = true) by reflexivity.
  split; [exact Hc|].
  exact (error_html_markup_fixed
           (context (error_page "<script>alert(1)</script>"))
           (context (error_page "Page not found.")) ">" Hc).
Defined.

Lemma index_html_markup_shape_witness :
  let ctx1 := {| start := Some "<b>"; end_ := Some "<i>"; optimal_mode := Some "bike";
                 emissions := Some sample_report; error_message := None |} in
  let ctx2 := {| start := Some "A"; end_ := Some "B"; optimal_mode := Some "car";
                 emissions := Some tied_report; error_message := None |} in
  let rt1 := fun _ : float => "<1>" in
  let rt2 := fun _ : float => "2" in
  shape ctx1 = shape ctx2
  /\ markup "<" = true
  /\ exists h1 h2,
       render_index_html rt1 ctx1 = Return h1
       /\ render_index_html rt2 ctx2 = Return h2
       /\ count "<" h1 = count "<" h2.
Proof.
  cbv zeta.
  assert (Hc : markup "<" = true) by reflexivity.
  split; [reflexivity|]. split; [exact Hc|].
  eexists. eexists. split; [reflexivity|]. split; [reflexivity|].
  exact (index_html_markup_shape (fun _ => "<1>") (fun _ => "2")
           {| start := Some "<b>"; end_ := Some "<i>"; optimal_mode := Some "bike";
              emissions := Some sample_report; error_message := None |}
           {| start := Some "A"; end_ := Some "B"; optimal_mode := Some "car";
              emissions := Some tied_report; error_message := None |}
           _ _ "<" eq_refl Hc eq_refl eq_refl).
Defined.

Lemma index_pages_render_witness :
  let request := post [("start", ""); ("end", "B")] in
  let page := error_page "Start and end locations must be provided." in
  let w' := {| random_state := replay [];
               logged := ["An error occurred: Start and end locations must be provided."] |} in
  index request (world_of []) = (Return (Body page), w')
  /\ exists h, html (fun _ => "") page = Return h.
Proof.
  cbv zeta.
  assert (Hrun : index (post [("start", ""); ("end", "B")]) (world_of [])
                 = (Return (Body (error_page "Start and end locations must be provided.")),
                    {| random_state := replay [];
                       logged :=
                         ["An error occurred: Start and end locations must be provided."] |}))
    by reflexivity.
  split; [exact Hrun|].
  exact (index_pages_render (fun _ => "") _ _ _ _ Hrun).
Defined.

Lemma result_pages_same_markup_witness :
  let fields1 := [("start", "<script>"); ("end", "'x'")] in
  let fields2 := [("start", "Lyon"); ("end", "Paris")] in
  method (post fields1) = "POST" /\ form (post fields1) = Return fields1
  /\ form_get fields1 "start" = Some "<script>" /\ form_get fields1 "end" = Some "'x'"
  /\ "<script>" <> "" /\ "'x'" <> ""
  /\ method (post fields2) = "POST" /\ form (post fields2) = Return fields2
  /\ form_get fields2 "start" = Some "Lyon" /\ form_get fields2 "end" = Some "Paris"
  /\ "Lyon" <> "" /\ "Paris" <> ""
  /\ markup "<" = true
  /\ exists page1 page2 w1' w2' h1 h2,
       index (post fields1) (world_of [1; 2; 3]) = (Return (Body page1), w1')
       /\ index (post fields2) (world_of [4; 5; 6]) = (Return (Body page2), w2')
       /\ html (fun _ => "0.0") page1 = Return h1
       /\ html (fun _ => "0.0") page2 = Return h2
       /\ count "<" h1 = count "<" h2.
Proof.
  cbv zeta.
  assert (H1 : "<script>" <> "") by discriminate.
  assert (H2 : "'x'" <> "") by discriminate.
  assert (H3 : "Lyon" <> "") by discriminate.
  assert (H4 : "Paris" <> "") by discriminate.
  assert (Hc : markup "<" = true) by reflexivity.
  repeat (split; [first [reflexivity | assumption]|]).
  exact (result_pages_same_markup (fun _ => "0.0")
           (post [("start", "<script>"); ("end", "'x'")])
           (post [("start", "Lyon"); ("end", "Paris")])
           [("start", "<script>"); ("end", "'x'")]
           [("start", "Lyon"); ("end", "Paris")]
           (world_of [1; 2; 3]) (world_of [4; 5; 6])
           "<script>" "'x'" "Lyon" "Paris" "<"
           eq_refl eq_refl eq_refl eq_refl H1 H2
           eq_refl eq_refl eq_refl eq_refl H3 H4 Hc).
Defined.

End MoreExamples.
